(** * StayFinder: bookings and listing search

    A shallow embedding of the request handlers of [routes/bookings.js],
    the pre-save hook of [models/Booking.js] and the search handler of
    [routes/listings.js], with the properties of the booking engine proved
    about them.

    Conventions of the embedding.
    - A JavaScript [Date] is its time value in milliseconds, an integer;
      an Invalid Date is [None], and every comparison with it is false.
    - Integer request fields ([guests.adults], [rating], [page], ...) are
      JSON numbers; a field that fails [isInt] is [NotInt].  A numeric
      string in the body, which [isInt] accepts as well and on which [+]
      concatenates, is not among the requests of this embedding.
    - A JavaScript Number that holds an amount ([price], [totalAmount],
      [rating.average]) is the rational it stands for, and each
      multiplication, addition and division on such numbers rounds its
      exact result to the nearest binary64 value, ties to even, as IEEE 754
      does ([binary64]); results stay in the finite range, and divisors are
      not zero.
    - The two MongoDB collections are finite maps from ObjectId to document.
    - A handler returns the response it sends and the store it leaves. *)

From Stdlib Require Import ZArith QArith Qcanon Lia.
From stdpp Require Import gmap strings list fin_maps sorting.

Local Open Scope Z_scope.

(** ** Documents *)

Abbreviation ObjectId := N (only parsing).

Inductive BookingStatus := pending | confirmed | cancelled | completed.
Inductive PaymentStatus := pay_pending | paid | refunded | failed.

#[global] Instance BookingStatus_eq_dec : EqDecision BookingStatus.
Proof. solve_decision. Defined.

Definition status_string (s : BookingStatus) : string :=
  match s with
  | pending => "pending"
  | confirmed => "confirmed"
  | cancelled => "cancelled"
  | completed => "completed"
  end.

Record Guests := { adults : Z; children : Z; infants : Z }.

Record Review := { rating : Z; comment : string; reviewDate : Z }.

Record Booking := {
  listing : ObjectId;
  guest : ObjectId;
  checkIn : Z;
  checkOut : Z;
  guests : Guests;
  totalAmount : Q;
  status : BookingStatus;
  paymentStatus : PaymentStatus;
  specialRequests : option string;
  cancellationReason : option string;
  review : option Review;
  createdAt : Z
}.

Inductive PropertyType := apartment | house | condo | villa | studio | room.

#[global] Instance PropertyType_eq_dec : EqDecision PropertyType.
Proof. solve_decision. Defined.

Record ListingRating := { average : Q; count : Z }.

Record Listing := {
  host : ObjectId;
  price : Q;
  city : string;
  propertyType : PropertyType;
  maxGuests : Z;
  lrating : ListingRating;
  isActive : bool;
  listedAt : Z
}.

Record Store := {
  bookings : gmap N Booking;
  listings : gmap N Listing
}.

(** [now] is [new Date()]; [today] is the same date after
    [setHours(0, 0, 0, 0)], the start of the server's current day. *)
Record Clock := { now : Z; today : Z }.

(** ** JavaScript numbers

    [binary64 q] is the double nearest to the rational [q]: the
    significand has 53 bits, less below the smallest normal number, and a
    tie goes to the even significand. *)

(** [n / d] rounded to the nearest integer, ties to even, for [0 < d]. *)
Definition round_half_even (n d : Z) : Z :=
  let q := n / d in
  let r := n mod d in
  match 2 * r ?= d with
  | Lt => q
  | Gt => q + 1
  | Eq => if Z.even q then q else q + 1
  end.

Definition binary64_pos (n d : positive) : Q :=
  let k0 := Z.log2 (Zpos n) - Z.log2 (Zpos d) in
  (* [k] is the integer with [2^k <= n/d < 2^(k+1)] *)
  let above := if 0 <=? k0 then Zpos d * 2 ^ k0 <=? Zpos n
               else Zpos d <=? Zpos n * 2 ^ (- k0) in
  let k := if above then k0 else k0 - 1 in
  (* the exponent of the last bit of the significand *)
  let e := Z.max (-1074) (k - 52) in
  if 0 <=? e
  then inject_Z (round_half_even (Zpos n) (Zpos d * 2 ^ e) * 2 ^ e)
  else Qmake (round_half_even (Zpos n * 2 ^ (- e)) (Zpos d))
             (Z.to_pos (2 ^ (- e))).

Definition binary64 (q : Q) : Q :=
  Qred
    match Qnum (Qred q) with
    | Z0 => 0%Q
    | Zpos n => binary64_pos n (Qden (Qred q))
    | Zneg n => (- binary64_pos n (Qden (Qred q)))%Q
    end.

(** [a * b], [a + b] and [a / b] on Numbers. *)
Definition js_mul (a b : Q) : Q := binary64 (a * b).
Definition js_add (a b : Q) : Q := binary64 (a + b).
Definition js_div (a b : Q) : Q := binary64 (a / b).

(** ** Request fields *)

(** [new Date(value)] for the string of a date field, and whether that string
    passes [isISO8601()]. *)
Record DateField := { isISO8601 : bool; date : option Z }.

Inductive IntField := Absent | NotInt | IsInt (n : Z).

Inductive IdField := IdMissing | IdMalformed | IdOk (id : ObjectId).

Definition date_lt (a b : option Z) : bool :=
  match a, b with
  | Some x, Some y => x <? y
  | _, _ => false
  end.

Definition date_le (a b : option Z) : bool :=
  match a, b with
  | Some x, Some y => x <=? y
  | _, _ => false
  end.

(** [value || 0] on an integer field. *)
Definition or_zero (f : IntField) : Z :=
  match f with
  | IsInt n => n
  | _ => 0
  end.

Record BookingRequest := {
  req_listing : IdField;
  req_checkIn : DateField;
  req_checkOut : DateField;
  req_adults : IntField;
  req_children : IntField;
  req_infants : IntField;
  req_specialRequests : option string
}.

(** ** Responses *)

Inductive FieldError :=
  | ListingIdRequired
  | InvalidListingId
  | CheckInNotDate
  | CheckInPast
  | CheckOutNotDate
  | CheckOutNotAfter
  | AdultsRequired
  | ChildrenNegative
  | InfantsNegative
  | ReasonTooLong
  | RatingRange
  | CommentTooLong
  | MinPriceNotNumber
  | MaxPriceNotNumber
  | GuestsAtLeastOne
  | PropertyTypeInvalid
  | PageAtLeastOne
  | LimitRange.

#[global] Instance FieldError_eq_dec : EqDecision FieldError.
Proof. solve_decision. Defined.

Record Pagination := {
  currentPage : Z;
  totalPages : Z;
  totalListings : Z;
  hasNextPage : bool;
  hasPreviousPage : bool
}.

Inductive Response :=
  | ValidationFailed (errors : list FieldError)
  | ListingNotFound
  | ListingNotAvailable
  | TooManyGuests (max : Z)
  | DatesNotAvailable
  | BookingCreated (id : ObjectId) (b : Booking)
  | BookingList (bs : list (ObjectId * Booking))
  | InvalidBookingId
  | BookingNotFound
  | NotAuthorized
  | AlreadyCancelled
  | CannotCancelCompleted
  | BookingCancelled (b : Booking)
  | OnlyGuestsCanReview
  | NotCompleted
  | AlreadyReviewed
  | ReviewAdded (b : Booking)
  | ListingPage (ls : list (ObjectId * Listing)) (p : Pagination)
  | ServerError.

(** The status code given to [res.status] for each response. *)
Definition http_status (r : Response) : Z :=
  match r with
  | BookingCreated _ _ => 201
  | BookingList _ | BookingCancelled _ | ReviewAdded _ | ListingPage _ _ => 200
  | ListingNotFound | BookingNotFound => 404
  | NotAuthorized | OnlyGuestsCanReview => 403
  | ServerError => 500
  | _ => 400
  end.

(** ** Early return

    A handler body is a sequence of checks, each of which may send a
    response and return.  [inl r] is a response already sent. *)

Definition Handler (A : Type) : Type := Response + A.

#[global] Instance Handler_ret : MRet Handler := fun _ a => inr a.
#[global] Instance Handler_bind : MBind Handler := fun _ _ f m =>
  match m with
  | inl r => inl r
  | inr a => f a
  end.

Definition reply {A} (r : Response) : Handler A := inl r.

(** [if (c) return res...json(r)] *)
Definition reply_if (c : bool) (r : Response) : Handler unit :=
  if c then inl r else inr tt.

(** [validationResult(req)] followed by the [errors.isEmpty()] test. *)
Definition validated (errors : list FieldError) : Handler unit :=
  match errors with
  | [] => inr tt
  | _ => inl (ValidationFailed errors)
  end.

(** The response of a handler and the store it leaves: a handler that
    returned early has written nothing. *)
Definition run (st : Store) (h : Handler (Response * Store)) : Response * Store :=
  match h with
  | inl r => (r, st)
  | inr out => out
  end.

(** ** The Booking schema *)

Definition length_at_most (n : nat) (s : option string) : bool :=
  match s with
  | Some t => bool_decide (String.length t ≤ n)%nat
  | None => true
  end.

(** Path validators that run when a new document is saved. *)
Definition schema_valid (b : Booking) : bool :=
  (1 <=? adults (guests b)) && (0 <=? children (guests b))
  && (0 <=? infants (guests b)) && Qle_bool 0 (totalAmount b)
  && length_at_most 500 (specialRequests b).

(** Validators of the [review] paths. *)
Definition review_valid (r : Review) : bool :=
  (1 <=? rating r) && (rating r <=? 5)
  && bool_decide (String.length (comment r) ≤ 500)%nat.

(** [bookingSchema.pre('save')]: the first call of [next] decides; [true]
    is [next()] without an error. *)
Definition pre_save (clk : Clock) (b : Booking) : bool :=
  if checkIn b >=? checkOut b then false
  else if checkIn b <? today clk then false
  else true.

(** [booking.save()] of a document under [id]: [None] when the hook
    passes an error to [next], so that the promise rejects. *)
Definition save (clk : Clock) (st : Store) (id : ObjectId) (b : Booking) : option Store :=
  if pre_save clk b
  then Some {| bookings := <[id := b]> (bookings st); listings := listings st |}
  else None.

(** ** POST /api/bookings *)

Definition validate_create (clk : Clock) (req : BookingRequest) : list FieldError :=
  match req_listing req with
  | IdMissing => [ListingIdRequired; InvalidListingId]
  | IdMalformed => [InvalidListingId]
  | IdOk _ => []
  end
  ++ (if isISO8601 (req_checkIn req) then [] else [CheckInNotDate])
  ++ (if date_lt (date (req_checkIn req)) (Some (today clk))
      then [CheckInPast] else [])
  ++ (if isISO8601 (req_checkOut req) then [] else [CheckOutNotDate])
  ++ (if date_le (date (req_checkOut req)) (date (req_checkIn req))
      then [CheckOutNotAfter] else [])
  ++ match req_adults req with
     | IsInt n => if 1 <=? n then [] else [AdultsRequired]
     | _ => [AdultsRequired]
     end
  ++ match req_children req with
     | Absent => []
     | IsInt n => if 0 <=? n then [] else [ChildrenNegative]
     | NotInt => [ChildrenNegative]
     end
  ++ match req_infants req with
     | Absent => []
     | IsInt n => if 0 <=? n then [] else [InfantsNegative]
     | NotInt => [InfantsNegative]
     end.

Definition MS_PER_DAY : Z := 1000 * 60 * 60 * 24.

(** [Math.ceil(a / b)] on integers, for a positive [b]. *)
Definition ceil_div (a b : Z) : Z := - ((- a) / b).

(** The filter of the overlap query: same listing, status in
    [['pending', 'confirmed']], [checkIn < checkOutDate] and
    [checkOut > checkInDate]. *)
Definition overlap_filter (lid : ObjectId) (checkInDate checkOutDate : Z)
    (b : Booking) : bool :=
  bool_decide (listing b = lid)
  && bool_decide (status b ∈ [pending; confirmed])
  && (checkIn b <? checkOutDate)
  && (checkOut b >? checkInDate).

(** [Model.findOne(filter)]: some document that matches, if there is one. *)
Definition findOne {A} (p : A → bool) (m : gmap N A) : option (N * A) :=
  List.find (λ kv, p kv.2) (map_to_list m).

(** The [_id] of a new document: an ObjectId not yet in the collection. *)
Definition new_id {A} (m : gmap N A) : ObjectId := fresh (dom m).

(** [guests.adults + (guests.children || 0) + (guests.infants || 0)] *)
Definition totalGuests (req : BookingRequest) : Z :=
  or_zero (req_adults req) + or_zero (req_children req)
  + or_zero (req_infants req).

Definition createBooking (clk : Clock) (st : Store) (userId : ObjectId)
    (req : BookingRequest) : Response * Store :=
  run st (
    validated (validate_create clk req);;
    listingId ← match req_listing req with
                | IdOk i => mret i
                | _ => reply ServerError
                end;
    l ← match listings st !! listingId with
        | Some l => mret l
        | None => reply ListingNotFound
        end;
    reply_if (negb (isActive l)) ListingNotAvailable;;
    reply_if (totalGuests req >? maxGuests l) (TooManyGuests (maxGuests l));;
    (* an Invalid Date in the query filter is a cast error, caught below *)
    checkInDate ← match date (req_checkIn req) with
                  | Some d => mret d
                  | None => reply ServerError
                  end;
    checkOutDate ← match date (req_checkOut req) with
                   | Some d => mret d
                   | None => reply ServerError
                   end;
    reply_if
      (bool_decide (is_Some (findOne
         (overlap_filter listingId checkInDate checkOutDate) (bookings st))))
      DatesNotAvailable;;
    let nights := ceil_div (checkOutDate - checkInDate) MS_PER_DAY in
    let booking := {|
      listing := listingId;
      guest := userId;
      checkIn := checkInDate;
      checkOut := checkOutDate;
      guests := {| adults := or_zero (req_adults req);
                   children := or_zero (req_children req);
                   infants := or_zero (req_infants req) |};
      totalAmount := js_mul (inject_Z nights) (price l);
      status := pending;
      paymentStatus := pay_pending;
      specialRequests := req_specialRequests req;
      cancellationReason := None;
      review := None;
      createdAt := now clk |} in
    let id := new_id (bookings st) in
    reply_if (negb (schema_valid booking)) ServerError;;
    match save clk st id booking with
    | Some st' => mret (BookingCreated id booking, st')
    | None => reply ServerError
    end).

(** ** Updates of a booking document *)

Definition set_cancelled (b : Booking) (reason : string) : Booking := {|
  listing := listing b;
  guest := guest b;
  checkIn := checkIn b;
  checkOut := checkOut b;
  guests := guests b;
  totalAmount := totalAmount b;
  status := cancelled;
  paymentStatus := paymentStatus b;
  specialRequests := specialRequests b;
  cancellationReason := Some reason;
  review := review b;
  createdAt := createdAt b |}.

Definition set_review (b : Booking) (r : Review) : Booking := {|
  listing := listing b;
  guest := guest b;
  checkIn := checkIn b;
  checkOut := checkOut b;
  guests := guests b;
  totalAmount := totalAmount b;
  status := status b;
  paymentStatus := paymentStatus b;
  specialRequests := specialRequests b;
  cancellationReason := cancellationReason b;
  review := Some r;
  createdAt := createdAt b |}.

Definition set_rating (l : Listing) (r : ListingRating) : Listing := {|
  host := host l;
  price := price l;
  city := city l;
  propertyType := propertyType l;
  maxGuests := maxGuests l;
  lrating := r;
  isActive := isActive l;
  listedAt := listedAt l |}.

(** [s || d] on an optional string: the empty string is falsy. *)
Definition or_default (s : option string) (d : string) : string :=
  match s with
  | None => d
  | Some t => if String.eqb t "" then d else t
  end.

(** [Model.findById(req.params.id)]: a string that is not an ObjectId
    ([None]) raises a CastError, answered with 'Invalid booking ID'. *)
Definition findById (st : Store) (id : option ObjectId) : Handler (ObjectId * Booking) :=
  match id with
  | None => reply InvalidBookingId
  | Some i =>
      match bookings st !! i with
      | Some b => mret (i, b)
      | None => reply BookingNotFound
      end
  end.

(** ** PUT /api/bookings/:id/cancel *)

Definition validate_cancel (reason : option string) : list FieldError :=
  if length_at_most 500 reason then [] else [ReasonTooLong].

Definition cancelBooking (clk : Clock) (st : Store) (userId : ObjectId)
    (id : option ObjectId) (reason : option string) : Response * Store :=
  run st (
    validated (validate_cancel reason);;
    '(bid, booking) ← findById st id;
    let isGuest := bool_decide (guest booking = userId) in
    (* populate('listing', 'host') leaves null for a listing that is gone,
       and reading [.host] of it throws *)
    l ← match listings st !! listing booking with
        | Some l => mret l
        | None => reply ServerError
        end;
    let isHost := bool_decide (host l = userId) in
    reply_if (negb isGuest && negb isHost) NotAuthorized;;
    reply_if (bool_decide (status booking = cancelled)) AlreadyCancelled;;
    reply_if (bool_decide (status booking = completed)) CannotCancelCompleted;;
    let booking' :=
      set_cancelled booking (or_default reason "No reason provided") in
    match save clk st bid booking' with
    | Some st' => mret (BookingCancelled booking', st')
    | None => reply ServerError
    end).

(** ** PUT /api/bookings/:id/review *)

Record ReviewRequest := {
  rv_rating : IntField;
  rv_comment : option string
}.

Definition validate_review (req : ReviewRequest) : list FieldError :=
  match rv_rating req with
  | IsInt n => if (1 <=? n) && (n <=? 5) then [] else [RatingRange]
  | _ => [RatingRange]
  end
  ++ (if length_at_most 500 (rv_comment req) then [] else [CommentTooLong]).

(** [booking.review && booking.review.rating] *)
Definition reviewed (b : Booking) : bool :=
  match review b with
  | Some r => negb (rating r =? 0)
  | None => false
  end.

(** The rating rollup of the handler, on the listing document. *)
Definition add_rating (l : Listing) (newRating : Z) : Listing :=
  let totalRating :=
    js_add (js_mul (average (lrating l)) (inject_Z (count (lrating l))))
           (inject_Z newRating) in
  let count' := count (lrating l) + 1 in
  set_rating l {| average := js_div totalRating (inject_Z count'); count := count' |}.

Definition addReview (clk : Clock) (st : Store) (userId : ObjectId)
    (id : option ObjectId) (req : ReviewRequest) : Response * Store :=
  run st (
    validated (validate_review req);;
    '(bid, booking) ← findById st id;
    reply_if (negb (bool_decide (guest booking = userId))) OnlyGuestsCanReview;;
    reply_if (negb (bool_decide (status booking = completed))) NotCompleted;;
    reply_if (reviewed booking) AlreadyReviewed;;
    let r := {| rating := or_zero (rv_rating req);
                comment := or_default (rv_comment req) "";
                reviewDate := now clk |} in
    let booking' := set_review booking r in
    reply_if (negb (review_valid r)) ServerError;;
    st1 ← match save clk st bid booking' with
          | Some s => mret s
          | None => reply ServerError
          end;
    let st2 :=
      match listings st1 !! listing booking' with
      | Some l =>
          {| bookings := bookings st1;
             listings := <[listing booking' := add_rating l (rating r)]> (listings st1) |}
      | None => st1
      end in
    mret (ReviewAdded booking', st2)).

(** ** GET /api/bookings *)

(** The [filter] object given to [Booking.find]; an absent key does not
    constrain. *)
Record BookingFilter := {
  f_guest : option ObjectId;
  f_listing : option (list ObjectId);
  f_status : option string
}.

Definition matches (f : BookingFilter) (b : Booking) : bool :=
  match f_guest f with
  | Some g => bool_decide (guest b = g)
  | None => true
  end
  && match f_listing f with
     | Some ids => bool_decide (listing b ∈ ids)
     | None => true
     end
  && match f_status f with
     | Some s => String.eqb (status_string (status b)) s
     | None => true
     end.

(** [if (s)] on an optional query string. *)
Definition truthy (s : option string) : option string :=
  match s with
  | Some t => if String.eqb t "" then None else Some t
  | None => None
  end.

Definition bookings_filter (st : Store) (userId : ObjectId)
    (q_status q_type : option string) : BookingFilter :=
  let type := default "guest" q_type in
  {| f_guest := if String.eqb type "guest" then Some userId else None;
     f_listing :=
       if String.eqb type "guest" then None
       else if String.eqb type "host" then
         Some (map_to_list (filter (λ kv, host kv.2 = userId) (listings st))).*1
       else None;
     f_status := truthy q_status |}.

(** [.sort({ createdAt: -1 })] *)
Definition newer {A} (created : A → Z) (x y : N * A) : Prop :=
  created y.2 ≤ created x.2.

#[global] Instance newer_dec {A} (created : A → Z) x y :
  Decision (newer created x y).
Proof. unfold newer. apply _. Defined.

Definition newest_first {A} (created : A → Z) (l : list (N * A)) : list (N * A) :=
  merge_sort (newer created) l.

#[global] Instance newer_total {A} (created : A → Z) : Total (newer created).
Proof. intros x y. unfold newer. lia. Defined.

Definition getBookings (st : Store) (userId : ObjectId)
    (q_status q_type : option string) : Response * Store :=
  let f := bookings_filter st userId q_status q_type in
  (BookingList
     (newest_first createdAt
        (List.filter (λ kv, matches f kv.2) (map_to_list (bookings st)))),
   st).

(** ** GET /api/listings *)

Inductive NumField := NumAbsent | NotNumeric | IsNum (x : Q).

Inductive TypeField := TypeAbsent | TypeUnknown | IsType (p : PropertyType).

Record ListingQuery := {
  q_city : option string;
  q_minPrice : NumField;
  q_maxPrice : NumField;
  q_guests : IntField;
  q_propertyType : TypeField;
  q_page : IntField;
  q_limit : IntField
}.

Definition validate_search (q : ListingQuery) : list FieldError :=
  match q_minPrice q with
  | NotNumeric => [MinPriceNotNumber]
  | _ => []
  end
  ++ match q_maxPrice q with
     | NotNumeric => [MaxPriceNotNumber]
     | _ => []
     end
  ++ match q_guests q with
     | Absent => []
     | IsInt n => if 1 <=? n then [] else [GuestsAtLeastOne]
     | NotInt => [GuestsAtLeastOne]
     end
  ++ match q_propertyType q with
     | TypeUnknown => [PropertyTypeInvalid]
     | _ => []
     end
  ++ match q_page q with
     | Absent => []
     | IsInt n => if 1 <=? n then [] else [PageAtLeastOne]
     | NotInt => [PageAtLeastOne]
     end
  ++ match q_limit q with
     | Absent => []
     | IsInt n => if (1 <=? n) && (n <=? 50) then [] else [LimitRange]
     | NotInt => [LimitRange]
     end.

(** A destructuring default, [page = 1], followed by [parseInt]. *)
Definition int_or (dflt : Z) (f : IntField) : Z :=
  match f with
  | IsInt n => n
  | _ => dflt
  end.

(** The [pagination] object of the response. *)
Definition pagination (page limit totalListings : Z) : Pagination :=
  let totalPages := ceil_div totalListings limit in
  {| currentPage := page;
     totalPages := totalPages;
     totalListings := totalListings;
     hasNextPage := page <? totalPages;
     hasPreviousPage := page >? 1 |}.

Section Search.

(** MongoDB's [$regex] match with option [i], of a pattern against a
    field: the database's matcher, not part of this code. *)
Variable regex_match : string → string → bool.

Definition listing_filter (q : ListingQuery) (l : Listing) : bool :=
  isActive l
  && match truthy (q_city q) with
     | Some c => regex_match c (city l)
     | None => true
     end
  && match q_minPrice q with
     | IsNum x => Qle_bool x (price l)
     | _ => true
     end
  && match q_maxPrice q with
     | IsNum x => Qle_bool (price l) x
     | _ => true
     end
  && match q_guests q with
     | IsInt n => n <=? maxGuests l
     | _ => true
     end
  && match q_propertyType q with
     | IsType p => bool_decide (propertyType l = p)
     | _ => true
     end.

(** [Listing.countDocuments(filter)] *)
Definition countDocuments (q : ListingQuery) (st : Store) : Z :=
  Z.of_nat (length
    (List.filter (λ kv, listing_filter q kv.2) (map_to_list (listings st)))).

Definition getListings (st : Store) (q : ListingQuery) : Response * Store :=
  run st (
    validated (validate_search q);;
    let page := int_or 1 (q_page q) in
    let limit := int_or 12 (q_limit q) in
    let skip := (page - 1) * limit in
    let found :=
      take (Z.to_nat limit)
        (drop (Z.to_nat skip)
           (newest_first listedAt
              (List.filter (λ kv, listing_filter q kv.2)
                 (map_to_list (listings st))))) in
    mret (ListingPage found (pagination page limit (countDocuments q st)), st)).

End Search.

(** * Vocabulary of the properties *)

(** Half-open intervals [[a,b)] and [[c,d)] overlap. *)
Definition overlap (a b c d : Z) : Prop := a < d ∧ c < b.

(** A response that reports a failure: status 400 and above. *)
Definition is_failure (r : Response) : Prop := 400 ≤ http_status r.

(** The bookings carried by the response of the list operation. *)
Definition listed (r : Response) : list (ObjectId * Booking) :=
  match r with
  | BookingList bs => bs
  | _ => []
  end.

(** ** Checks in order

    Each check looks at the request and the store on its own and yields the
    failure it stands for, or [None] when it does not fail (also when what
    it looks at is not there).  [first_failure] is the failure of the first
    check of a sequence that fails. *)

Fixpoint first_failure (checks : list (option Response)) : option Response :=
  match checks with
  | [] => None
  | Some r :: _ => Some r
  | None :: rest => first_failure rest
  end.

Definition check_validation (errors : list FieldError) : option Response :=
  match errors with
  | [] => None
  | _ => Some (ValidationFailed errors)
  end.

Definition requested_listing (st : Store) (req : BookingRequest) : option Listing :=
  match req_listing req with
  | IdOk lid => listings st !! lid
  | _ => None
  end.

Definition check_listing_exists (st : Store) (req : BookingRequest) : option Response :=
  match req_listing req with
  | IdOk lid => if listings st !! lid is Some _ then None else Some ListingNotFound
  | _ => Some ServerError
  end.

Definition check_listing_active (st : Store) (req : BookingRequest) : option Response :=
  match requested_listing st req with
  | Some l => if isActive l then None else Some ListingNotAvailable
  | None => None
  end.

Definition check_capacity (st : Store) (req : BookingRequest) : option Response :=
  match requested_listing st req with
  | Some l =>
      if totalGuests req >? maxGuests l then Some (TooManyGuests (maxGuests l))
      else None
  | None => None
  end.

(** Both dates are real dates, so that the overlap query can be built. *)
Definition check_dates_cast (req : BookingRequest) : option Response :=
  match date (req_checkIn req), date (req_checkOut req) with
  | Some _, Some _ => None
  | _, _ => Some ServerError
  end.

Definition check_no_overlap (st : Store) (req : BookingRequest) : option Response :=
  match req_listing req, date (req_checkIn req), date (req_checkOut req) with
  | IdOk lid, Some ci, Some co =>
      if findOne (overlap_filter lid ci co) (bookings st) is Some _
      then Some DatesNotAvailable else None
  | _, _, _ => None
  end.

(** The order in which creation runs its checks. *)
Definition create_checks (clk : Clock) (st : Store) (req : BookingRequest)
    : list (option Response) :=
  [ check_validation (validate_create clk req);
    check_listing_exists st req;
    check_listing_active st req;
    check_capacity st req;
    check_dates_cast req;
    check_no_overlap st req ].

(** The order of the specification: listing, capacity, dates, overlap. *)
Definition spec_create_checks (clk : Clock) (st : Store) (req : BookingRequest)
    : list (option Response) :=
  [ check_listing_exists st req;
    check_listing_active st req;
    check_capacity st req;
    check_validation (validate_create clk req);
    check_no_overlap st req ].

Definition check_id (id : option ObjectId) : option Response :=
  match id with
  | Some _ => None
  | None => Some InvalidBookingId
  end.

Definition requested_booking (st : Store) (id : option ObjectId) : option Booking :=
  match id with
  | Some i => bookings st !! i
  | None => None
  end.

Definition check_booking_exists (st : Store) (id : option ObjectId) : option Response :=
  match id with
  | Some i => if bookings st !! i is Some _ then None else Some BookingNotFound
  | None => None
  end.

(** The listing of the booking is still there to be populated. *)
Definition check_populated (st : Store) (id : option ObjectId) : option Response :=
  match requested_booking st id with
  | Some b => if listings st !! listing b is Some _ then None else Some ServerError
  | None => None
  end.

Definition check_guest_or_host (st : Store) (userId : ObjectId)
    (id : option ObjectId) : option Response :=
  match requested_booking st id with
  | Some b =>
      match listings st !! listing b with
      | Some l =>
          if bool_decide (guest b = userId) || bool_decide (host l = userId)
          then None else Some NotAuthorized
      | None => None
      end
  | None => None
  end.

Definition check_status_not (s : BookingStatus) (r : Response) (st : Store)
    (id : option ObjectId) : option Response :=
  match requested_booking st id with
  | Some b => if bool_decide (status b = s) then Some r else None
  | None => None
  end.

(** The order in which cancellation runs its checks: validation,
    existence, permission, state. *)
Definition cancel_checks (st : Store) (userId : ObjectId)
    (id : option ObjectId) (reason : option string) : list (option Response) :=
  [ check_validation (validate_cancel reason);
    check_id id;
    check_booking_exists st id;
    check_populated st id;
    check_guest_or_host st userId id;
    check_status_not cancelled AlreadyCancelled st id;
    check_status_not completed CannotCancelCompleted st id ].

Definition check_is_guest (st : Store) (userId : ObjectId)
    (id : option ObjectId) : option Response :=
  match requested_booking st id with
  | Some b => if bool_decide (guest b = userId) then None else Some OnlyGuestsCanReview
  | None => None
  end.

Definition check_completed (st : Store) (id : option ObjectId) : option Response :=
  match requested_booking st id with
  | Some b => if bool_decide (status b = completed) then None else Some NotCompleted
  | None => None
  end.

Definition check_not_reviewed (st : Store) (id : option ObjectId) : option Response :=
  match requested_booking st id with
  | Some b => if reviewed b then Some AlreadyReviewed else None
  | None => None
  end.

(** The order in which review runs its checks: validation, existence,
    permission, state, then the one-review rule. *)
Definition review_checks (st : Store) (userId : ObjectId)
    (id : option ObjectId) (req : ReviewRequest) : list (option Response) :=
  [ check_validation (validate_review req);
    check_id id;
    check_booking_exists st id;
    check_is_guest st userId id;
    check_completed st id;
    check_not_reviewed st id ].

(** The order of the specification for review: existence, state,
    permission, business rule. *)
Definition spec_review_checks (st : Store) (userId : ObjectId)
    (id : option ObjectId) (req : ReviewRequest) : list (option Response) :=
  [ check_id id;
    check_booking_exists st id;
    check_completed st id;
    check_is_guest st userId id;
    check_not_reviewed st id ].

(** ** Sample data

    A villa at 150 a night for four guests, rated 4.8 over 24 reviews, and
    a stay of guest 5 from 1 July to 5 July 2025. *)

(** Midnight UTC of the given day of July 2025, in milliseconds. *)
Definition july (day : Z) : Z := 1751328000000 + (day - 1) * MS_PER_DAY.

Definition clock_on (day : Z) : Clock :=
  {| now := july day + 10 * 3600000; today := july day |}.

Definition the_villa : Listing := {|
  host := 9%N;
  price := 150;
  city := "Lisbon";
  propertyType := villa;
  maxGuests := 4;
  lrating := {| average := binary64 4.8; count := 24 |};
  isActive := true;
  listedAt := july (-60) |}.

Definition july_stay (s : BookingStatus) : Booking := {|
  listing := 1%N;
  guest := 5%N;
  checkIn := july 1;
  checkOut := july 5;
  guests := {| adults := 2; children := 0; infants := 0 |};
  totalAmount := 600;
  status := s;
  paymentStatus := paid;
  specialRequests := None;
  cancellationReason := None;
  review := None;
  createdAt := july (-40) |}.

Definition store_with (b : Booking) : Store :=
  {| bookings := {[ 1%N := b ]}; listings := {[ 1%N := the_villa ]} |}.

Definition stay_request (lid : ObjectId) (from to : Z) : BookingRequest := {|
  req_listing := IdOk lid;
  req_checkIn := {| isISO8601 := true; date := Some (july from) |};
  req_checkOut := {| isISO8601 := true; date := Some (july to) |};
  req_adults := IsInt 3;
  req_children := IsInt 1;
  req_infants := Absent;
  req_specialRequests := None |}.

Definition five_stars : ReviewRequest :=
  {| rv_rating := IsInt 5; rv_comment := Some "Lovely" |}.

Definition reviewed_stay : Booking :=
  set_review (july_stay completed)
    {| rating := 4; comment := "Fine"; reviewDate := july 6 |}.

(** Twenty-five active listings. *)
Definition many_listings : Store :=
  {| bookings := ∅;
     listings := list_to_map ((λ i, (N.of_nat i, the_villa)) <$> seq 0 25) |}.

Definition page_query (page limit : IntField) : ListingQuery := {|
  q_city := None;
  q_minPrice := NumAbsent;
  q_maxPrice := NumAbsent;
  q_guests := Absent;
  q_propertyType := TypeAbsent;
  q_page := page;
  q_limit := limit |}.

(** The booking that guest 5 obtains for 5 to 7 July when asking on 2
    June, and the store that then holds it. *)
Definition short_stay : Booking := {|
  listing := 1%N;
  guest := 5%N;
  checkIn := july 5;
  checkOut := july 7;
  guests := {| adults := 3; children := 1; infants := 0 |};
  totalAmount := 300;
  status := pending;
  paymentStatus := pay_pending;
  specialRequests := None;
  cancellationReason := None;
  review := None;
  createdAt := now (clock_on (-29)) |}.

Definition store_after_short_stay : Store :=
  {| bookings := <[2%N := short_stay]> (bookings (store_with (july_stay confirmed)));
     listings := listings (store_with (july_stay confirmed)) |}.

(** * The remaining routes and the virtuals of the Booking model *)

(** A response of the routes below: [res.status(code).json(...)] with a
    document, or with a [message] alone. *)
Inductive Answer (A : Type) :=
  | Sent (code : Z) (body : A)
  | Refused (code : Z) (message : string).

Arguments Sent {A} code body.
Arguments Refused {A} code message.

(** ** GET /api/bookings/:id

    [users] holds the identifiers of the User collection: both the guest
    and the listing are populated, and reading [._id] of a guest that is
    gone, or [.host] of a listing that is gone, throws. *)
Definition getBooking (users : gset N) (st : Store) (userId : ObjectId)
    (id : option ObjectId) : Answer Booking :=
  match id with
  | None => Refused 400 "Invalid booking ID"
  | Some i =>
      match bookings st !! i with
      | None => Refused 404 "Booking not found"
      | Some booking =>
          if negb (bool_decide (guest booking ∈ users))
          then Refused 500 "Server error while fetching booking"
          else
            let isGuest := bool_decide (guest booking = userId) in
            match listings st !! listing booking with
            | None => Refused 500 "Server error while fetching booking"
            | Some l =>
                let isHost := bool_decide (host l = userId) in
                if negb isGuest && negb isHost
                then Refused 403 "Not authorized to view this booking"
                else Sent 200 booking
            end
      end
  end.

(** ** GET /api/listings/:id *)
Definition getListing (st : Store) (id : option ObjectId) : Answer Listing :=
  match id with
  | None => Refused 400 "Invalid listing ID"
  | Some i =>
      match listings st !! i with
      | None => Refused 404 "Listing not found"
      | Some l =>
          if negb (isActive l) then Refused 404 "Listing is not available"
          else Sent 200 l
      end
  end.

(** ** GET /api/listings/host/my-listings *)
Definition getMyListings (st : Store) (userId : ObjectId)
    : list (ObjectId * Listing) :=
  newest_first listedAt
    (List.filter (λ kv, bool_decide (host kv.2 = userId))
       (map_to_list (listings st))).

(** ** DELETE /api/listings/:id *)
Definition deleteListing (st : Store) (userId : ObjectId)
    (id : option ObjectId) : Answer unit * Store :=
  match id with
  | None => (Refused 400 "Invalid listing ID", st)
  | Some i =>
      match listings st !! i with
      | None => (Refused 404 "Listing not found", st)
      | Some l =>
          if negb (bool_decide (host l = userId))
          then (Refused 403 "Not authorized to delete this listing", st)
          else (Sent 200 (),
                {| bookings := bookings st;
                   listings := delete i (listings st) |})
      end
  end.

(** ** Virtuals of the Booking schema *)

(** [bookingSchema.virtual('nights')] *)
Definition nights (b : Booking) : Z :=
  let diffTime := Z.abs (checkOut b - checkIn b) in
  ceil_div diffTime MS_PER_DAY.

(** [bookingSchema.virtual('totalGuests')] *)
Definition booking_totalGuests (b : Booking) : Z :=
  adults (guests b) + children (guests b) + infants (guests b).

(** * Vocabulary of the further properties *)

(** A booking that holds its dates. *)
Definition active (b : Booking) : Prop :=
  status b = pending ∨ status b = confirmed.

(** No two bookings that hold their dates overlap on one listing. *)
Definition no_double_booking (st : Store) : Prop :=
  ∀ i j b1 b2,
    i ≠ j →
    bookings st !! i = Some b1 →
    bookings st !! j = Some b2 →
    listing b1 = listing b2 →
    active b1 → active b2 →
    ¬ overlap (checkIn b1) (checkOut b1) (checkIn b2) (checkOut b2).

(** The listings matched by a search, newest first, before [skip] and
    [limit]. *)
Definition search_results (regex_match : string → string → bool)
    (st : Store) (q : ListingQuery) : list (ObjectId * Listing) :=
  newest_first listedAt
    (List.filter (λ kv, listing_filter regex_match q kv.2)
       (map_to_list (listings st))).

(** The listings carried by the response of a search. *)
Definition page_items (r : Response) : list (ObjectId * Listing) :=
  match r with
  | ListingPage ls _ => ls
  | _ => []
  end.

(** ** Further sample data *)

(** A hidden flat of host 9, beside the villa. *)
Definition hidden_flat : Listing := {|
  host := 9%N;
  price := 80;
  city := "Porto";
  propertyType := apartment;
  maxGuests := 2;
  lrating := {| average := 0; count := 0 |};
  isActive := false;
  listedAt := july (-50) |}.

Definition two_listings (b : Booking) : Store :=
  {| bookings := {[ 1%N := b ]};
     listings := {[ 1%N := the_villa; 2%N := hidden_flat ]} |}.

(** The stay of July once cancelled without a reason, once reviewed with
    five stars on 2 June, and the stores that hold it then. *)
Definition cancelled_stay : Booking :=
  set_cancelled (july_stay pending) "No reason provided".

Definition store_after_cancel : Store :=
  {| bookings := <[1%N := cancelled_stay]> (bookings (store_with (july_stay pending)));
     listings := listings (store_with (july_stay pending)) |}.

Definition five_star_stay : Booking :=
  set_review (july_stay completed)
    {| rating := 5; comment := "Lovely"; reviewDate := now (clock_on (-29)) |}.

Definition store_after_review : Store :=
  {| bookings := <[1%N := five_star_stay]> (bookings (store_with (july_stay completed)));
     listings := <[1%N := add_rating the_villa 5]>
                   (listings (store_with (july_stay completed))) |}.

(** The store once host 9 has deleted the villa. *)
Definition store_after_delete : Store :=
  {| bookings := bookings (store_with (july_stay pending));
     listings := delete 1%N (listings (store_with (july_stay pending))) |}.

(** A request whose check-in passes the format check without being a
    date that [new Date] can read, such as a week date. *)
Definition week_request : BookingRequest := {|
  req_listing := IdOk 1%N;
  req_checkIn := {| isISO8601 := true; date := None |};
  req_checkOut := {| isISO8601 := true; date := Some (july 7) |};
  req_adults := IsInt 2;
  req_children := Absent;
  req_infants := Absent;
  req_specialRequests := None |}.

(** A room of host 9 at 99.99 a night, in a store of its own. *)
Definition the_room : Listing := {|
  host := 9%N;
  price := binary64 99.99;
  city := "Faro";
  propertyType := room;
  maxGuests := 4;
  lrating := {| average := 0; count := 0 |};
  isActive := true;
  listedAt := july (-45) |}.

Definition room_store : Store :=
  {| bookings := ∅; listings := {[ 3%N := the_room ]} |}.

Ltac handler :=
  unfold run, validated, reply_if, reply, findById, mbind, mret,
    Handler_bind, Handler_ret in *.

(** * Properties *)

(** ** Arithmetic of [Math.ceil] *)

Lemma ceil_div_bounds (a b : Z) :
  0 < b → (ceil_div a b - 1) * b < a ≤ ceil_div a b * b.
Proof.
  intros Hb. unfold ceil_div.
  pose proof (Z.div_mod (- a) b) as Hdm.
  pose proof (Z.mod_pos_bound (- a) b Hb) as Hm.
  nia.
Qed.

Lemma ceil_div_unique (a b n : Z) :
  0 < b → (n - 1) * b < a ≤ n * b → ceil_div a b = n.
Proof.
  intros Hb Hn. pose proof (ceil_div_bounds a b Hb) as Hc. nia.
Qed.

(** ** Rounding to binary64 *)

Lemma round_half_even_nonneg (n d : Z) :
  0 ≤ n → 0 < d → 0 ≤ round_half_even n d.
Proof.
  intros Hn Hd. unfold round_half_even.
  pose proof (Z.div_pos n d Hn Hd).
  destruct (2 * (n mod d) ?= d); [destruct (Z.even _)|..]; lia.
Qed.

Lemma round_half_even_1 (n : Z) : round_half_even n 1 = n.
Proof.
  unfold round_half_even. rewrite Z.div_1_r, Z.mod_1_r. simpl. done.
Qed.

Lemma binary64_pos_nonneg (n d : positive) : (0 <= binary64_pos n d)%Q.
Proof.
  unfold binary64_pos.
  set (e := Z.max (-1074) _).
  destruct (Z.leb_spec 0 e) as [He|He].
  - change 0%Q with (inject_Z 0). rewrite <- Zle_Qle.
    apply Z.mul_nonneg_nonneg; [|by apply Z.pow_nonneg].
    apply round_half_even_nonneg; [done|].
    apply Z.mul_pos_pos; [done|]. by apply Z.pow_pos_nonneg.
  - unfold Qle. cbn [Qnum Qden]. rewrite Z.mul_0_l, Z.mul_1_r.
    apply round_half_even_nonneg; [|done].
    apply Z.mul_nonneg_nonneg; [done|]. by apply Z.pow_nonneg.
Qed.

(** Rounding keeps the sign. *)
Lemma binary64_nonneg (q : Q) : (0 <= q)%Q → (0 <= binary64 q)%Q.
Proof.
  intros Hq. unfold binary64. rewrite Qred_correct.
  rewrite <- (Qred_correct q) in Hq.
  destruct (Qred q) as [n d]. cbn [Qnum Qden].
  destruct n as [|n|n].
  - done.
  - apply binary64_pos_nonneg.
  - unfold Qle in Hq. cbn [Qnum Qden] in Hq. lia.
Qed.

(** Rounding depends on the value, not on the fraction that writes it. *)
Lemma binary64_proper (q q' : Q) : (q == q')%Q → binary64 q = binary64 q'.
Proof. intros H. unfold binary64. by rewrite (Qred_complete _ _ H). Qed.

(** An integer below [2^53] is a double. *)
Lemma binary64_integer (z : Z) :
  0 ≤ z < 2 ^ 53 → binary64 (inject_Z z) = inject_Z z.
Proof.
  intros [Hz0 Hz].
  assert (Hred : Qred (inject_Z z) = inject_Z z).
  { apply Qred_identity. cbn [inject_Z Qnum Qden]. apply Z.gcd_1_r. }
  unfold binary64. rewrite Hred. cbn [inject_Z Qnum Qden].
  destruct z as [|p|p]; [done| |lia].
  rewrite <- Hred. apply Qred_complete.
  unfold binary64_pos.
  change (Z.log2 1) with 0. rewrite Z.sub_0_r.
  pose proof (Z.log2_nonneg (Z.pos p)) as Hk0.
  pose proof (Z.log2_spec (Z.pos p) eq_refl) as [Hlo _].
  assert (Hk : Z.log2 (Z.pos p) < 53) by (apply Z.log2_lt_pow2; lia).
  destruct (Z.leb_spec 0 (Z.log2 (Z.pos p))) as [_|]; [|lia].
  destruct (Z.leb_spec (1 * 2 ^ Z.log2 (Z.pos p)) (Z.pos p)) as [_|]; [|lia].
  rewrite Z.max_r by lia.
  destruct (Z.leb_spec 0 (Z.log2 (Z.pos p) - 52)) as [He|He].
  - assert (Z.log2 (Z.pos p) - 52 = 0) as -> by lia.
    change (2 ^ 0) with 1. rewrite !Z.mul_1_r, round_half_even_1. done.
  - rewrite round_half_even_1. unfold Qeq. cbn [inject_Z Qnum Qden].
    rewrite Z2Pos.id by (apply Z.pow_pos_nonneg; lia). lia.
Qed.

(** ** Queries on a collection *)

Lemma findOne_is_Some {A} (p : A → bool) (m : gmap N A) :
  is_Some (findOne p m) ↔ ∃ i x, m !! i = Some x ∧ p x = true.
Proof.
  unfold findOne. split.
  - intros [[i x] Hf]. apply find_some in Hf as [Hin Hp].
    exists i, x. split; [|done].
    apply elem_of_map_to_list. by apply list_elem_of_In.
  - intros (i & x & Hm & Hp).
    destruct (List.find _ _) as [kv|] eqn:Hf; [by eexists|].
    exfalso. apply elem_of_map_to_list, list_elem_of_In in Hm.
    pose proof (find_none _ _ Hf _ Hm) as Hn. simpl in Hn. congruence.
Qed.

Lemma overlap_filter_true lid ci co b :
  overlap_filter lid ci co b = true ↔
  listing b = lid ∧ (status b = pending ∨ status b = confirmed)
  ∧ checkIn b < co ∧ ci < checkOut b.
Proof.
  unfold overlap_filter.
  rewrite !andb_true_iff, !bool_decide_eq_true, Z.ltb_lt, Z.gtb_gt.
  rewrite !elem_of_cons, elem_of_nil. intuition lia.
Qed.

(** ** Creation *)

Lemma validate_create_nil clk req :
  validate_create clk req = [] →
  (∃ lid, req_listing req = IdOk lid)
  ∧ date_lt (date (req_checkIn req)) (Some (today clk)) = false
  ∧ date_le (date (req_checkOut req)) (date (req_checkIn req)) = false
  ∧ 1 ≤ or_zero (req_adults req)
  ∧ 0 ≤ or_zero (req_children req)
  ∧ 0 ≤ or_zero (req_infants req).
Proof.
  unfold validate_create. intros H.
  repeat (apply app_eq_nil in H as [? H]).
  repeat split.
  - destruct (req_listing req); naive_solver.
  - by destruct (date_lt _ _).
  - by destruct (date_le _ _).
  - destruct (req_adults req) as [| |n]; try done.
    simpl. destruct (Z.leb_spec 1 n); [lia|done].
  - destruct (req_children req) as [| |n]; simpl; try lia.
    destruct (Z.leb_spec 0 n); [lia|done].
  - destruct (req_infants req) as [| |n]; simpl; try lia.
    destruct (Z.leb_spec 0 n); [lia|done].
Qed.

(** What a successful creation went through: every precondition held, and
    the stored document is the one built by the handler. *)
Lemma createBooking_created clk st userId req id b st' :
  createBooking clk st userId req = (BookingCreated id b, st') →
  ∃ lid l ci co,
    validate_create clk req = []
    ∧ req_listing req = IdOk lid
    ∧ listings st !! lid = Some l
    ∧ isActive l = true
    ∧ totalGuests req ≤ maxGuests l
    ∧ date (req_checkIn req) = Some ci
    ∧ date (req_checkOut req) = Some co
    ∧ findOne (overlap_filter lid ci co) (bookings st) = None
    ∧ listing b = lid ∧ guest b = userId
    ∧ checkIn b = ci ∧ checkOut b = co
    ∧ totalAmount b = js_mul (inject_Z (ceil_div (co - ci) MS_PER_DAY)) (price l)
    ∧ status b = pending
    ∧ review b = None
    ∧ pre_save clk b = true
    ∧ id = new_id (bookings st)
    ∧ st' = {| bookings := <[id := b]> (bookings st); listings := listings st |}.
Proof.
  unfold createBooking, save. handler. intros H.
  destruct (validate_create clk req) eqn:Hv; [|done].
  destruct (req_listing req) as [| |lid] eqn:Hl; [done..|].
  destruct (listings st !! lid) as [l|] eqn:Hll; [|done].
  destruct (isActive l) eqn:Ha; [|done]. simpl in H.
  destruct (Z.gtb_spec (totalGuests req) (maxGuests l)) as [|Hcap]; [done|].
  destruct (date (req_checkIn req)) as [ci|] eqn:Hci; [|done].
  destruct (date (req_checkOut req)) as [co|] eqn:Hco; [|done].
  case_bool_decide as Hov; [done|].
  destruct (negb (schema_valid _)); [done|].
  destruct (pre_save clk _) eqn:Hps; [|done].
  simplify_eq. exists lid, l, ci, co.
  repeat split; try done.
  destruct (findOne _ _) eqn:Hf; [|done]. exfalso. apply Hov. by eexists.
Qed.

(** C1. Once the request has passed validation, names an existing active
    listing and fits its capacity, creation answers with the availability
    conflict exactly when some pending or confirmed booking of that listing
    overlaps the requested half-open interval; in particular bookings that
    end no later than the requested check-in (back-to-back stays) or start
    no earlier than the requested check-out never cause the conflict. *)
Theorem create_conflict_iff_overlap clk st userId req lid l ci co :
  validate_create clk req = [] →
  req_listing req = IdOk lid →
  listings st !! lid = Some l →
  isActive l = true →
  totalGuests req ≤ maxGuests l →
  date (req_checkIn req) = Some ci →
  date (req_checkOut req) = Some co →
  ((createBooking clk st userId req).1 = DatesNotAvailable ↔
   ∃ id b, bookings st !! id = Some b ∧ listing b = lid
     ∧ (status b = pending ∨ status b = confirmed)
     ∧ overlap (checkIn b) (checkOut b) ci co)
  ∧ ((∀ id b, bookings st !! id = Some b → listing b = lid →
        status b = pending ∨ status b = confirmed →
        checkOut b ≤ ci ∨ co ≤ checkIn b) →
     (createBooking clk st userId req).1 ≠ DatesNotAvailable).
Proof.
  intros Hv Hlid Hl Ha Hcap Hci Hco.
  assert (Hiff : (createBooking clk st userId req).1 = DatesNotAvailable ↔
    ∃ id b, bookings st !! id = Some b ∧ listing b = lid
      ∧ (status b = pending ∨ status b = confirmed)
      ∧ overlap (checkIn b) (checkOut b) ci co).
  { unfold createBooking, save in *. handler.
    rewrite Hv, Hlid, Hl, Ha, Hci, Hco. simpl.
    destruct (Z.gtb_spec (totalGuests req) (maxGuests l)) as [|_]; [lia|].
    case_bool_decide as Hov; simpl.
    - split; [intros _|done].
      apply findOne_is_Some in Hov as (i & b & Hb & Hp).
      apply overlap_filter_true in Hp. exists i, b. unfold overlap. tauto.
    - split.
      + destruct (negb (schema_valid _)); [by simpl|].
        destruct (pre_save clk _); by simpl.
      + intros (i & b & Hb & Hlb & Hs & Ho). exfalso. apply Hov.
        apply findOne_is_Some. exists i, b. split; [done|].
        apply overlap_filter_true. unfold overlap in Ho. tauto. }
  split; [exact Hiff|].
  intros Hfree Hc. apply Hiff in Hc as (i & b & Hb & Hlb & Hs & Ho).
  destruct (Hfree i b Hb Hlb Hs); unfold overlap in Ho; lia.
Qed.

(** C2, as the route computes it.  The booking stored by a successful
    creation carries the requested dates and, as total amount, the product
    of [n] and the nightly price of its listing rounded to the nearest
    double, where [n] is the number of days from check-in to check-out
    rounded up: the least integer with [checkOut - checkIn <= n] days.  The
    total is the product itself when the price is an integer and the
    product is below [2^53]. *)
Theorem created_total_amount clk st userId req id b st' :
  createBooking clk st userId req = (BookingCreated id b, st') →
  bookings st' !! id = Some b
  ∧ date (req_checkIn req) = Some (checkIn b)
  ∧ date (req_checkOut req) = Some (checkOut b)
  ∧ ∃ l n,
      listings st !! listing b = Some l
      ∧ (n - 1) * MS_PER_DAY < checkOut b - checkIn b ≤ n * MS_PER_DAY
      ∧ totalAmount b = binary64 (inject_Z n * price l)
      ∧ (∀ p, (price l == inject_Z p)%Q → n * p < 2 ^ 53 → 0 ≤ p →
           totalAmount b = inject_Z (n * p)).
Proof.
  intros H. apply createBooking_created in H
    as (lid & l & ci & co & _ & _ & Hl & _ & _ & Hci & Hco & _ & Hlb & _
        & Hbi & Hbo & Hta & _ & _ & Hps & _ & Hst).
  subst st'. simpl. rewrite lookup_insert_eq. subst ci co lid.
  repeat split; try done.
  exists l, (ceil_div (checkOut b - checkIn b) MS_PER_DAY).
  pose proof (ceil_div_bounds (checkOut b - checkIn b) MS_PER_DAY eq_refl) as Hn.
  split; [done|]. split; [exact Hn|]. split; [exact Hta|].
  intros p Hp Hlt Hp0. rewrite Hta. unfold js_mul.
  assert (checkIn b < checkOut b).
  { unfold pre_save in Hps.
    destruct (Z.geb_spec (checkIn b) (checkOut b)); [done|lia]. }
  assert (0 ≤ ceil_div (checkOut b - checkIn b) MS_PER_DAY)
    by (unfold MS_PER_DAY in *; lia).
  rewrite <- (binary64_integer
    (ceil_div (checkOut b - checkIn b) MS_PER_DAY * p)) by lia.
  apply binary64_proper. rewrite Hp. by rewrite inject_Z_mult.
Qed.

(** At 99.99 a night, three nights are stored as 299.96999999999997:
    not the product of 3 and the price, and not the double nearest to
    299.97 either. *)
Lemma created_total_amount_counterexample :
  ∃ id b st' l,
    createBooking (clock_on (-29)) room_store 5%N (stay_request 3 10 13)
    = (BookingCreated id b, st')
    ∧ listings room_store !! listing b = Some l
    ∧ checkOut b - checkIn b = 3 * MS_PER_DAY
    ∧ price l = binary64 99.99
    ∧ totalAmount b = binary64 299.96999999999997
    ∧ ¬ (totalAmount b == inject_Z 3 * price l)%Q
    ∧ ¬ (totalAmount b == 299.97)%Q
    ∧ totalAmount b ≠ binary64 299.97.
Proof.
  eexists _, _, _, _. split; [vm_compute; reflexivity|].
  split; [vm_compute; reflexivity|].
  repeat split; try (vm_compute; reflexivity);
    intros H; vm_compute in H; discriminate.
Qed.

(** C6. A request whose check-out is not after its check-in, or whose
    check-in is before the start of the current day, is answered with the
    validation failure that lists the corresponding date error, and the
    store is left as it was. *)
Theorem create_rejects_bad_dates clk st userId req ci co :
  date (req_checkIn req) = Some ci →
  date (req_checkOut req) = Some co →
  co ≤ ci ∨ ci < today clk →
  ∃ errors,
    createBooking clk st userId req = (ValidationFailed errors, st)
    ∧ (co ≤ ci → CheckOutNotAfter ∈ errors)
    ∧ (ci < today clk → CheckInPast ∈ errors).
Proof.
  intros Hci Hco Hbad.
  exists (validate_create clk req).
  assert (Hin : (co ≤ ci → CheckOutNotAfter ∈ validate_create clk req)
    ∧ (ci < today clk → CheckInPast ∈ validate_create clk req)).
  { unfold validate_create. rewrite Hci, Hco. simpl. split; intros Hlt.
    - destruct (Z.leb_spec co ci); [|lia].
      rewrite !elem_of_app. right. right. right. right. left.
      apply list_elem_of_singleton. done.
    - destruct (Z.ltb_spec ci (today clk)); [|lia].
      rewrite !elem_of_app. right. right. left.
      apply list_elem_of_singleton. done. }
  split; [|exact Hin].
  unfold createBooking. handler.
  destruct (validate_create clk req) eqn:Hv; [|done].
  destruct Hin as [H1 H2].
  destruct Hbad as [Hb|Hb]; [apply H1 in Hb|apply H2 in Hb];
    by apply elem_of_nil in Hb.
Qed.


(** ** Order of the checks *)

Ltac checks :=
  unfold create_checks, cancel_checks, review_checks, check_validation,
    check_listing_exists, check_listing_active, check_capacity,
    check_dates_cast, check_no_overlap, requested_listing, check_id,
    check_booking_exists, check_populated, check_guest_or_host,
    check_status_not, check_is_guest, check_completed, check_not_reviewed,
    requested_booking in *.

Lemma create_check_order clk st userId req :
  match first_failure (create_checks clk st req) with
  | Some r => createBooking clk st userId req = (r, st)
  | None =>
      (createBooking clk st userId req).1 = ServerError
      ∨ ∃ id b, (createBooking clk st userId req).1 = BookingCreated id b
  end.
Proof.
  unfold createBooking, save. checks. handler.
  destruct (validate_create clk req) eqn:Hv; [|done].
  destruct (req_listing req) as [| |lid]; [done..|].
  destruct (listings st !! lid) as [l|]; [|done].
  destruct (isActive l); [|done].
  destruct (totalGuests req >? maxGuests l); [done|].
  destruct (date (req_checkIn req)) as [ci|]; [|done].
  destruct (date (req_checkOut req)) as [co|]; [|done].
  cbn [first_failure negb].
  case_bool_decide as Hov.
  - destruct Hov as [kv ->]. done.
  - destruct (findOne _ _) eqn:Hf; [exfalso; apply Hov; by eexists|].
    cbn [first_failure].
    destruct (negb (schema_valid _)); [by left|].
    destruct (pre_save clk _); [right; by eexists _, _|by left].
Qed.

Lemma cancel_check_order clk st userId id reason :
  match first_failure (cancel_checks st userId id reason) with
  | Some r => cancelBooking clk st userId id reason = (r, st)
  | None =>
      (cancelBooking clk st userId id reason).1 = ServerError
      ∨ ∃ b, (cancelBooking clk st userId id reason).1 = BookingCancelled b
  end.
Proof.
  unfold cancelBooking, save. checks. handler.
  destruct (validate_cancel reason); [|done].
  destruct id as [bid|]; [|done].
  destruct (bookings st !! bid) as [b|]; [|done].
  destruct (listings st !! listing b) as [l|]; [|done].
  cbn [first_failure].
  destruct (bool_decide (guest b = userId)), (bool_decide (host l = userId));
    cbn [first_failure negb andb orb]; try done;
    destruct (bool_decide (status b = cancelled)); try done;
    destruct (bool_decide (status b = completed)); try done;
    cbn [first_failure]; destruct (pre_save clk _);
    (by left) || (right; by eexists).
Qed.

Lemma review_check_order clk st userId id req :
  match first_failure (review_checks st userId id req) with
  | Some r => addReview clk st userId id req = (r, st)
  | None =>
      (addReview clk st userId id req).1 = ServerError
      ∨ ∃ b, (addReview clk st userId id req).1 = ReviewAdded b
  end.
Proof.
  unfold addReview, save. checks. handler.
  destruct (validate_review req); [|done].
  destruct id as [bid|]; [|done].
  destruct (bookings st !! bid) as [b|]; [|done].
  cbn [first_failure].
  destruct (bool_decide (guest b = userId)); [|done].
  destruct (bool_decide (status b = completed)); [|done].
  destruct (reviewed b); [done|].
  cbn [first_failure negb].
  destruct (negb (review_valid _)); [by left|].
  destruct (pre_save clk _); [right; by eexists|by left].
Qed.

(** C7, as the handlers have it.  Creation reports the first failure in
    the order: request validation (which holds the date rules and lists
    every failing field), listing exists, listing active, capacity, dates
    are real dates, no overlap.  Cancellation and review report the first
    failure in the order: validation, identifier, existence, permission,
    state, and for review the one-review rule last.  When no check fails
    the document is saved, and the answer is the success or the server
    error of a rejected save. *)
Theorem checks_run_in_order :
  (∀ clk st userId req,
     match first_failure (create_checks clk st req) with
     | Some r => createBooking clk st userId req = (r, st)
     | None =>
         (createBooking clk st userId req).1 = ServerError
         ∨ ∃ id b, (createBooking clk st userId req).1 = BookingCreated id b
     end)
  ∧ (∀ clk st userId id reason,
       match first_failure (cancel_checks st userId id reason) with
       | Some r => cancelBooking clk st userId id reason = (r, st)
       | None =>
           (cancelBooking clk st userId id reason).1 = ServerError
           ∨ ∃ b, (cancelBooking clk st userId id reason).1 = BookingCancelled b
       end)
  ∧ (∀ clk st userId id req,
       match first_failure (review_checks st userId id req) with
       | Some r => addReview clk st userId id req = (r, st)
       | None =>
           (addReview clk st userId id req).1 = ServerError
           ∨ ∃ b, (addReview clk st userId id req).1 = ReviewAdded b
       end).
Proof.
  split; [|split].
  - apply create_check_order.
  - apply cancel_check_order.
  - apply review_check_order.
Qed.

(** A request for a listing that does not exist, with check-out before
    check-in: in the order of the specification the listing comes first,
    and the handler answers with the validation failure.  A review by a
    stranger on a pending booking: in the order of the specification the
    state comes first, and the handler answers with the permission
    failure. *)
Lemma checks_order_counterexample :
  first_failure
    (spec_create_checks (clock_on (-29)) (store_with (july_stay confirmed))
       (stay_request 7 5 4)) = Some ListingNotFound
  ∧ (createBooking (clock_on (-29)) (store_with (july_stay confirmed)) 5%N
       (stay_request 7 5 4)).1 = ValidationFailed [CheckOutNotAfter]
  ∧ first_failure
      (spec_review_checks (store_with (july_stay pending)) 6%N (Some 1%N)
         five_stars) = Some NotCompleted
  ∧ (addReview (clock_on (-29)) (store_with (july_stay pending)) 6%N
       (Some 1%N) five_stars).1 = OnlyGuestsCanReview.
Proof. repeat split; vm_compute; reflexivity. Qed.

(** ** The pre-save hook *)

Lemma pre_save_true clk b :
  pre_save clk b = true ↔ today clk <= checkIn b < checkOut b.
Proof.
  unfold pre_save.
  destruct (Z.geb_spec (checkIn b) (checkOut b));
    destruct (Z.ltb_spec (checkIn b) (today clk)); split; (done || lia).
Qed.

Lemma pre_save_false clk b :
  checkIn b < today clk ∨ checkIn b >= checkOut b → pre_save clk b = false.
Proof.
  intros H. destruct (pre_save clk b) eqn:Hp; [|done].
  apply pre_save_true in Hp. lia.
Qed.

Lemma or_default_length (s : option string) :
  length_at_most 500 s = true →
  bool_decide (String.length (or_default s "") ≤ 500)%nat = true.
Proof.
  destruct s as [t|]; simpl; [|done].
  destruct (String.eqb_spec t ""); [by subst|done].
Qed.

(** ** Cancellation *)

(** With a valid reason, an authorized caller and a pending or confirmed
    booking whose dates pass the hook, cancellation succeeds. *)
Lemma cancelBooking_succeeds clk st userId bid reason b l :
  validate_cancel reason = [] →
  bookings st !! bid = Some b →
  listings st !! listing b = Some l →
  guest b = userId ∨ host l = userId →
  status b = pending ∨ status b = confirmed →
  today clk <= checkIn b < checkOut b →
  let b' := set_cancelled b (or_default reason "No reason provided") in
  cancelBooking clk st userId (Some bid) reason =
    (BookingCancelled b',
     {| bookings := <[bid := b']> (bookings st); listings := listings st |}).
Proof.
  intros Hv Hb Hl Hwho Hs Hd b'.
  assert (Hps : pre_save clk b' = true) by (apply pre_save_true; exact Hd).
  subst b'. unfold cancelBooking, save. handler. rewrite Hv, Hb, Hl, Hps.
  assert (negb (bool_decide (guest b = userId))
          && negb (bool_decide (host l = userId)) = false) as ->.
  { destruct Hwho as [Hw|Hw]; rewrite (bool_decide_eq_true_2 _ Hw); simpl;
      [done|apply andb_false_r]. }
  rewrite !bool_decide_eq_false_2; [done|..];
    destruct Hs as [-> | ->]; done.
Qed.

(** A cancelled or completed booking is not cancelled, whoever asks. *)
Lemma cancelBooking_final_status clk st userId bid reason b :
  bookings st !! bid = Some b →
  status b = cancelled ∨ status b = completed →
  ∃ e, cancelBooking clk st userId (Some bid) reason = (e, st) ∧ is_failure e.
Proof.
  intros Hb Hs. unfold cancelBooking, save. handler. rewrite Hb.
  destruct (validate_cancel reason); [|eexists; split; [done|by compute]].
  destruct (listings st !! listing b) as [l|];
    [|eexists; split; [done|by compute]].
  destruct (negb _ && negb _); [eexists; split; [done|by compute]|].
  destruct Hs as [-> | ->]; simpl; eexists; (split; [done|by compute]).
Qed.

(** C5, at a booking that has begun.  Guest 5 asks on 2 July to cancel
    the pending stay of 1 to 5 July, giving no reason: the save of the
    cancelled document is rejected by the hook, the answer is the server
    error and the booking stays pending. *)
Theorem cancel_after_check_in_fails :
  status (july_stay pending) = pending
  ∧ guest (july_stay pending) = 5%N
  ∧ checkIn (july_stay pending) < today (clock_on 2)
  ∧ cancelBooking (clock_on 2) (store_with (july_stay pending)) 5%N
      (Some 1%N) None
    = (ServerError, store_with (july_stay pending)).
Proof. repeat split. Qed.

(** ** Review *)

Lemma add_rating_formula l n :
  average (lrating (add_rating l n))
  = js_div
      (js_add (js_mul (average (lrating l)) (inject_Z (count (lrating l))))
              (inject_Z n))
      (inject_Z (count (lrating l) + 1))
  ∧ count (lrating (add_rating l n)) = count (lrating l) + 1.
Proof. done. Qed.

(** With a rating from 1 to 5, a comment within bounds, the guest as
    caller, a completed booking without review and dates that pass the
    hook, the review is stored and the rating of the listing rolled up. *)
Lemma addReview_succeeds clk st userId bid req b n :
  rv_rating req = IsInt n → 1 ≤ n ≤ 5 →
  length_at_most 500 (rv_comment req) = true →
  bookings st !! bid = Some b →
  guest b = userId →
  status b = completed →
  reviewed b = false →
  today clk <= checkIn b < checkOut b →
  let r := {| rating := n; comment := or_default (rv_comment req) "";
              reviewDate := now clk |} in
  let b' := set_review b r in
  addReview clk st userId (Some bid) req =
    (ReviewAdded b',
     {| bookings := <[bid := b']> (bookings st);
        listings :=
          match listings st !! listing b with
          | Some l => <[listing b := add_rating l n]> (listings st)
          | None => listings st
          end |}).
Proof.
  intros Hr Hn Hc Hb Hg Hs Hrev Hd r b'.
  unfold addReview, save, validate_review. handler.
  rewrite Hr, Hc, Hb, Hrev. simpl.
  assert ((1 <=? n) && (n <=? 5) = true) as Hn'.
  { apply andb_true_iff. split; apply Z.leb_le; lia. }
  rewrite Hn'. simpl.
  rewrite (bool_decide_eq_true_2 _ Hg), (bool_decide_eq_true_2 _ Hs). simpl.
  unfold review_valid. simpl. rewrite Hn', (or_default_length _ Hc). simpl.
  assert (Hps : pre_save clk b' = true) by (apply pre_save_true; exact Hd).
  subst b' r. rewrite Hps. simpl.
  destruct (listings st !! listing b); done.
Qed.

(** The scenario of the specification: five stars on 4.8 over 24 reviews
    give 4.808 over 25, in doubles. *)
Example rollup_scenario :
  average (lrating (add_rating the_villa 5)) = binary64 4.808
  ∧ count (lrating (add_rating the_villa 5)) = 25.
Proof. split; [|done]. by vm_compute. Qed.

(** C3, at a stay that is over.  On 1 August guest 5 gives five stars to
    the completed stay of 1 to 5 July, which has no review yet: the save of
    the reviewed document is rejected by the hook, the answer is the server
    error, and neither the review nor the rating of the listing is
    written. *)
Theorem review_after_stay_fails :
  status (july_stay completed) = completed
  ∧ guest (july_stay completed) = 5%N
  ∧ review (july_stay completed) = None
  ∧ validate_review five_stars = []
  ∧ addReview (clock_on 32) (store_with (july_stay completed)) 5%N
      (Some 1%N) five_stars
    = (ServerError, store_with (july_stay completed)).
Proof. repeat split. Qed.

(** C4. A review submitted on a booking that holds one is refused and
    nothing is written: the store after the attempt is the store before,
    so the stored review and the rating of the listing are as they were.
    The failure is the one of an already reviewed booking once the request
    is valid, the caller is the guest and the booking is completed. *)
Theorem second_review_rejected clk st userId bid req b r :
  bookings st !! bid = Some b →
  review b = Some r →
  rating r ≠ 0 →
  ∃ e,
    addReview clk st userId (Some bid) req = (e, st)
    ∧ is_failure e
    ∧ (validate_review req = [] → guest b = userId → status b = completed →
       e = AlreadyReviewed).
Proof.
  intros Hb Hr Hz.
  assert (Hrev : reviewed b = true).
  { unfold reviewed. rewrite Hr. by apply negb_true_iff, Z.eqb_neq. }
  unfold addReview. handler. rewrite Hb, Hrev.
  destruct (validate_review req);
    [|eexists; split; [done|split; [by compute|done]]].
  simpl. case_bool_decide as Hg; simpl;
    [|eexists; split; [done|split; [by compute|done]]].
  case_bool_decide as Hs; simpl;
    eexists; (split; [done|split; [by compute|done]]).
Qed.

(** C10. Every save of a booking runs the date hook, which rejects a
    document whose check-in is before the start of the current day or not
    before its check-out.  Creation, cancellation and review all save
    through it; so for a stored booking with such dates a cancellation or
    a review never completes: the store is left as it was and the answer
    is a failure, which is the server error whenever all the checks of the
    handler have passed. *)
Theorem save_reruns_date_hook :
  (∀ clk st id b,
     checkIn b < today clk ∨ checkIn b >= checkOut b →
     save clk st id b = None)
  ∧ (∀ clk st userId bid reason b,
       bookings st !! bid = Some b →
       checkIn b < today clk ∨ checkIn b >= checkOut b →
       ∃ e,
         cancelBooking clk st userId (Some bid) reason = (e, st)
         ∧ is_failure e
         ∧ (first_failure (cancel_checks st userId (Some bid) reason) = None →
            e = ServerError))
  ∧ (∀ clk st userId bid req b,
       bookings st !! bid = Some b →
       checkIn b < today clk ∨ checkIn b >= checkOut b →
       ∃ e,
         addReview clk st userId (Some bid) req = (e, st)
         ∧ is_failure e
         ∧ (first_failure (review_checks st userId (Some bid) req) = None →
            e = ServerError)).
Proof.
  split; [|split].
  - intros clk st id b Hd. unfold save. by rewrite pre_save_false.
  - intros clk st userId bid reason b Hb Hd.
    unfold cancelBooking, save. checks. handler. rewrite Hb.
    destruct (validate_cancel reason);
      [|eexists; split; [done|split; [by compute|done]]].
    destruct (listings st !! listing b) as [l|];
      [|eexists; split; [done|split; [by compute|done]]].
    cbn [first_failure].
    destruct (bool_decide (guest b = userId)), (bool_decide (host l = userId));
      cbn [first_failure negb andb orb];
      try (eexists; split; [done|split; [by compute|done]]);
      destruct (bool_decide (status b = cancelled));
      try (eexists; split; [done|split; [by compute|done]]);
      destruct (bool_decide (status b = completed));
      try (eexists; split; [done|split; [by compute|done]]);
      rewrite pre_save_false by exact Hd;
      eexists; (split; [done|split; [by compute|done]]).
  - intros clk st userId bid req b Hb Hd.
    unfold addReview, save. checks. handler. rewrite Hb.
    destruct (validate_review req);
      [|eexists; split; [done|split; [by compute|done]]].
    cbn [first_failure].
    destruct (bool_decide (guest b = userId));
      [|eexists; split; [done|split; [by compute|done]]].
    destruct (bool_decide (status b = completed));
      [|eexists; split; [done|split; [by compute|done]]].
    destruct (reviewed b);
      [eexists; split; [done|split; [by compute|done]]|].
    cbn [negb]. destruct (negb (review_valid _));
      [eexists; split; [done|split; [by compute|done]]|].
    rewrite pre_save_false by exact Hd.
    eexists; (split; [done|split; [by compute|done]]).
Qed.

(** ** Success of creation *)

Lemma new_id_fresh {A} (m : gmap N A) : m !! new_id m = None.
Proof. apply not_elem_of_dom. unfold new_id. apply is_fresh. Qed.

(** A request that passes every check, for a listing with a price that is
    not negative and with special requests within bounds, creates the
    booking under an identifier that was free. *)
Lemma createBooking_succeeds clk st userId req lid l ci co :
  validate_create clk req = [] →
  req_listing req = IdOk lid →
  listings st !! lid = Some l →
  isActive l = true →
  totalGuests req ≤ maxGuests l →
  date (req_checkIn req) = Some ci →
  date (req_checkOut req) = Some co →
  (∀ id b, bookings st !! id = Some b → listing b = lid →
     status b = pending ∨ status b = confirmed →
     ¬ overlap (checkIn b) (checkOut b) ci co) →
  (0 <= price l)%Q →
  length_at_most 500 (req_specialRequests req) = true →
  ∃ id b,
    createBooking clk st userId req =
      (BookingCreated id b,
       {| bookings := <[id := b]> (bookings st); listings := listings st |})
    ∧ bookings st !! id = None
    ∧ status b = pending.
Proof.
  intros Hv Hlid Hl Ha Hcap Hci Hco Hfree Hp Hsr.
  pose proof (validate_create_nil _ _ Hv) as (_ & Hpast & Hafter & Had & Hch & Hinf).
  rewrite Hci, Hco in *. simpl in Hpast, Hafter.
  apply Z.ltb_ge in Hpast. apply Z.leb_gt in Hafter.
  unfold createBooking, save. handler.
  rewrite Hv, Hlid, Hl, Ha, Hci, Hco. simpl.
  destruct (Z.gtb_spec (totalGuests req) (maxGuests l)) as [|_]; [lia|].
  case_bool_decide as Hov.
  { exfalso. apply findOne_is_Some in Hov as (i & b & Hb & Hf).
    apply overlap_filter_true in Hf as (? & ? & ? & ?).
    apply (Hfree i b); unfold overlap; auto. }
  assert (Hn : 0 ≤ ceil_div (co - ci) MS_PER_DAY).
  { pose proof (ceil_div_bounds (co - ci) MS_PER_DAY) as Hc.
    unfold MS_PER_DAY in *. lia. }
  unfold schema_valid. cbn [guests adults children infants totalAmount
    specialRequests].
  rewrite Hsr.
  rewrite (proj2 (Z.leb_le _ _) Had), (proj2 (Z.leb_le _ _) Hch),
    (proj2 (Z.leb_le _ _) Hinf).
  assert (Qle_bool 0 (js_mul (inject_Z (ceil_div (co - ci) MS_PER_DAY)) (price l))
          = true) as ->.
  { apply Qle_bool_iff, binary64_nonneg, Qmult_le_0_compat; [|done].
    unfold Qle. simpl. lia. }
  simpl.
  match goal with |- context [pre_save clk ?b] =>
    assert (pre_save clk b = true) as -> by (apply pre_save_true; simpl; lia)
  end.
  eexists _, _. split; [done|]. split; [apply new_id_fresh|done].
Qed.

(** The scenarios of the specification.  Against the confirmed stay of 1
    to 5 July, a request for 4 to 6 July is a conflict, and a request for 5
    to 7 July is accepted at twice the nightly price of 150. *)
Example scenario_conflict :
  (createBooking (clock_on (-29)) (store_with (july_stay confirmed)) 5%N
     (stay_request 1 4 6)).1 = DatesNotAvailable.
Proof. done. Qed.

Example scenario_back_to_back :
  ∃ id b,
    (createBooking (clock_on (-29)) (store_with (july_stay confirmed)) 5%N
       (stay_request 1 5 7)).1 = BookingCreated id b
    ∧ (totalAmount b == 300)%Q.
Proof. eexists _, _. split; [by vm_compute|done]. Qed.

(** Three adults and a child fit the four guests of the villa. *)
Example scenario_capacity :
  totalGuests (stay_request 1 5 7) = 4
  ∧ check_capacity (store_with (july_stay confirmed)) (stay_request 1 5 7) = None.
Proof. done. Qed.

(** ** Listing of bookings *)

Lemma newest_first_elem {A} (created : A → Z) (l : list (N * A)) x :
  x ∈ newest_first created l ↔ x ∈ l.
Proof. unfold newest_first. by rewrite merge_sort_Permutation. Qed.

(** C9. With a [type] that is neither 'guest' nor 'host' the filter has
    no constraint on the guest nor on the listing: the answer does not
    depend on the caller, and it holds exactly the bookings of the store
    that pass the status filter, when one is given. *)
Theorem bookings_of_other_type st u1 u2 q_status t :
  t ≠ "guest" → t ≠ "host" →
  f_guest (bookings_filter st u1 q_status (Some t)) = None
  ∧ f_listing (bookings_filter st u1 q_status (Some t)) = None
  ∧ getBookings st u1 q_status (Some t) = getBookings st u2 q_status (Some t)
  ∧ ∀ id b,
      (id, b) ∈ listed (getBookings st u1 q_status (Some t)).1 ↔
      bookings st !! id = Some b
      ∧ match truthy q_status with
        | Some s => status_string (status b) = s
        | None => True
        end.
Proof.
  intros Hg Hh.
  apply String.eqb_neq in Hg, Hh.
  unfold getBookings, bookings_filter. cbn [default from_option id].
  rewrite Hg, Hh.
  split; [done|]. split; [done|]. split; [done|].
  intros i b. cbn [fst listed].
  rewrite newest_first_elem, list_elem_of_In, filter_In.
  rewrite <- list_elem_of_In, elem_of_map_to_list.
  unfold matches. cbn [f_guest f_listing f_status snd andb].
  destruct (truthy q_status); [|tauto].
  rewrite String.eqb_eq. tauto.
Qed.

(** ** Pagination *)

Lemma validate_search_nil q :
  validate_search q = [] →
  1 ≤ int_or 1 (q_page q) ∧ 1 ≤ int_or 12 (q_limit q) ∧ int_or 12 (q_limit q) ≤ 50.
Proof.
  unfold validate_search. intros H.
  repeat (apply app_eq_nil in H as [? H]).
  split.
  - destruct (q_page q) as [| |n]; simpl; try lia; try done.
    destruct (Z.leb_spec 1 n); [lia|done].
  - destruct (q_limit q) as [| |n]; simpl; try lia; try done.
    destruct (Z.leb_spec 1 n), (Z.leb_spec n 50); simpl in *; done || lia.
Qed.

(** C8. A valid search is answered with a page and its pagination, for
    the page [page] (1 when absent) and the page size [limit] (12 when
    absent, always from 1 to 50): the total is the number of listings that
    match, the number of pages is the total divided by the page size and
    rounded up, there is a next page exactly when [page] is below that
    number and a previous page exactly when [page] is above 1.  A page size
    outside 1 to 50 fails validation. *)
Theorem search_pagination (regex_match : string → string → bool) st q :
  (validate_search q = [] →
   ∃ ls p,
     getListings regex_match st q = (ListingPage ls p, st)
     ∧ 1 ≤ int_or 12 (q_limit q) ∧ int_or 12 (q_limit q) ≤ 50
     ∧ (q_limit q = Absent → int_or 12 (q_limit q) = 12)
     ∧ currentPage p = int_or 1 (q_page q)
     ∧ totalListings p = countDocuments regex_match q st
     ∧ (totalPages p - 1) * int_or 12 (q_limit q) < totalListings p
     ∧ totalListings p ≤ totalPages p * int_or 12 (q_limit q)
     ∧ (hasNextPage p = true ↔ currentPage p < totalPages p)
     ∧ (hasPreviousPage p = true ↔ currentPage p > 1))
  ∧ (∀ n, q_limit q = IsInt n → n < 1 ∨ 50 < n →
     ∃ errors,
       getListings regex_match st q = (ValidationFailed errors, st)
       ∧ LimitRange ∈ errors).
Proof.
  split.
  - intros Hv. pose proof (validate_search_nil q Hv) as (Hp & Hl1 & Hl2).
    unfold getListings. handler. rewrite Hv.
    eexists _, _. split; [done|].
    pose proof (ceil_div_bounds (countDocuments regex_match q st)
      (int_or 12 (q_limit q))) as Hc.
    unfold pagination. simpl.
    rewrite Z.ltb_lt, Z.gtb_gt.
    repeat split; try done; try lia.
    by intros ->.
  - intros n Hn Hr. exists (validate_search q).
    assert (Hin : LimitRange ∈ validate_search q).
    { unfold validate_search. rewrite Hn.
      rewrite !elem_of_app. do 5 right.
      destruct (Z.leb_spec 1 n), (Z.leb_spec n 50); simpl;
        try apply list_elem_of_singleton; try done. lia. }
    split; [|done].
    unfold getListings. handler.
    destruct (validate_search q); [by apply elem_of_nil in Hin|done].
Qed.

(** The scenario of the specification: 25 listings at the default page
    size of 12 make 3 pages, and page 3 has a previous page and no next
    one. *)
Example pagination_scenario :
  ∃ ls,
    getListings (λ _ _, true) many_listings (page_query (IsInt 3) Absent)
    = (ListingPage ls
         {| currentPage := 3; totalPages := 3; totalListings := 25;
            hasNextPage := false; hasPreviousPage := true |},
       many_listings).
Proof. eexists. by vm_compute. Qed.

(** ** The properties at the sample data *)

Lemma create_conflict_iff_overlap_witness :
  ((createBooking (clock_on (-29)) (store_with (july_stay confirmed)) 5%N
      (stay_request 1 4 6)).1 = DatesNotAvailable ↔
   ∃ id b, bookings (store_with (july_stay confirmed)) !! id = Some b
     ∧ listing b = 1%N
     ∧ (status b = pending ∨ status b = confirmed)
     ∧ overlap (checkIn b) (checkOut b) (july 4) (july 6))
  ∧ ((∀ id b, bookings (store_with (july_stay confirmed)) !! id = Some b →
        listing b = 1%N →
        status b = pending ∨ status b = confirmed →
        checkOut b ≤ july 4 ∨ july 6 ≤ checkIn b) →
     (createBooking (clock_on (-29)) (store_with (july_stay confirmed)) 5%N
        (stay_request 1 4 6)).1 ≠ DatesNotAvailable).
Proof.
  apply (create_conflict_iff_overlap (clock_on (-29))
           (store_with (july_stay confirmed)) 5%N (stay_request 1 4 6)
           1%N the_villa (july 4) (july 6));
    reflexivity.
Defined.

Lemma created_total_amount_witness :
  bookings store_after_short_stay !! 2%N = Some short_stay
  ∧ date (req_checkIn (stay_request 1 5 7)) = Some (checkIn short_stay)
  ∧ date (req_checkOut (stay_request 1 5 7)) = Some (checkOut short_stay)
  ∧ ∃ l n,
      listings (store_with (july_stay confirmed)) !! listing short_stay = Some l
      ∧ (n - 1) * MS_PER_DAY < checkOut short_stay - checkIn short_stay
        ≤ n * MS_PER_DAY
      ∧ totalAmount short_stay = binary64 (inject_Z n * price l)
      ∧ (∀ p, (price l == inject_Z p)%Q → n * p < 2 ^ 53 → 0 ≤ p →
           totalAmount short_stay = inject_Z (n * p)).
Proof.
  apply (created_total_amount (clock_on (-29))
           (store_with (july_stay confirmed)) 5%N (stay_request 1 5 7)
           2%N short_stay store_after_short_stay).
  vm_compute. reflexivity.
Defined.

Lemma create_rejects_bad_dates_witness :
  ∃ errors,
    createBooking (clock_on (-29)) (store_with (july_stay confirmed)) 5%N
      (stay_request 1 5 4)
    = (ValidationFailed errors, store_with (july_stay confirmed))
    ∧ (july 4 ≤ july 5 → CheckOutNotAfter ∈ errors)
    ∧ (july 5 < today (clock_on (-29)) → CheckInPast ∈ errors).
Proof.
  apply (create_rejects_bad_dates (clock_on (-29))
           (store_with (july_stay confirmed)) 5%N (stay_request 1 5 4)
           (july 5) (july 4)).
  - reflexivity.
  - reflexivity.
  - left. vm_compute. discriminate.
Defined.

Lemma second_review_rejected_witness :
  ∃ e,
    addReview (clock_on (-29)) (store_with reviewed_stay) 5%N (Some 1%N)
      five_stars
    = (e, store_with reviewed_stay)
    ∧ is_failure e
    ∧ (validate_review five_stars = [] → guest reviewed_stay = 5%N →
       status reviewed_stay = completed → e = AlreadyReviewed).
Proof.
  apply (second_review_rejected (clock_on (-29)) (store_with reviewed_stay)
           5%N 1%N five_stars reviewed_stay
           {| rating := 4; comment := "Fine"; reviewDate := july 6 |}).
  - reflexivity.
  - reflexivity.
  - simpl. discriminate.
Defined.

Lemma save_reruns_date_hook_witness :
  ∃ e,
    cancelBooking (clock_on 2) (store_with (july_stay pending)) 5%N
      (Some 1%N) None
    = (e, store_with (july_stay pending))
    ∧ is_failure e
    ∧ (first_failure
         (cancel_checks (store_with (july_stay pending)) 5%N (Some 1%N) None)
       = None → e = ServerError).
Proof.
  apply (proj1 (proj2 save_reruns_date_hook) (clock_on 2)
           (store_with (july_stay pending)) 5%N 1%N None (july_stay pending)).
  - reflexivity.
  - left. vm_compute. reflexivity.
Defined.

Lemma bookings_of_other_type_witness :
  f_guest (bookings_filter (store_with (july_stay pending)) 5%N None (Some "all"))
  = None
  ∧ f_listing
      (bookings_filter (store_with (july_stay pending)) 5%N None (Some "all"))
    = None
  ∧ getBookings (store_with (july_stay pending)) 5%N None (Some "all")
    = getBookings (store_with (july_stay pending)) 77%N None (Some "all")
  ∧ ∀ id b,
      (id, b) ∈ listed
        (getBookings (store_with (july_stay pending)) 5%N None (Some "all")).1 ↔
      bookings (store_with (july_stay pending)) !! id = Some b
      ∧ match truthy None with
        | Some s => status_string (status b) = s
        | None => True
        end.
Proof.
  apply (bookings_of_other_type (store_with (july_stay pending)) 5%N 77%N
           None "all").
  - discriminate.
  - discriminate.
Defined.

Lemma search_pagination_witness :
  ∃ ls p,
    getListings (λ _ _, true) many_listings (page_query (IsInt 3) Absent)
    = (ListingPage ls p, many_listings)
    ∧ 1 ≤ 12 ∧ 12 ≤ 50
    ∧ (q_limit (page_query (IsInt 3) Absent) = Absent → 12 = 12)
    ∧ currentPage p = 3
    ∧ totalListings p
      = countDocuments (λ _ _, true) (page_query (IsInt 3) Absent) many_listings
    ∧ (totalPages p - 1) * 12 < totalListings p
    ∧ totalListings p ≤ totalPages p * 12
    ∧ (hasNextPage p = true ↔ currentPage p < totalPages p)
    ∧ (hasPreviousPage p = true ↔ currentPage p > 1).
Proof.
  apply (proj1 (search_pagination (λ _ _, true) many_listings
                  (page_query (IsInt 3) Absent))).
  reflexivity.
Defined.

(** * Further properties *)

(** ** What each handler can do to the store *)

Ltac fails := left; split; [by compute|done].

Lemma createBooking_effect clk st userId req :
  (is_failure (createBooking clk st userId req).1
   ∧ (createBooking clk st userId req).2 = st)
  ∨ ∃ id b st', createBooking clk st userId req = (BookingCreated id b, st').
Proof.
  unfold createBooking, save. handler.
  destruct (validate_create clk req); [|fails].
  destruct (req_listing req) as [| |lid]; [fails..|].
  destruct (listings st !! lid) as [l|]; [|fails].
  destruct (isActive l); [|fails].
  destruct (totalGuests req >? maxGuests l); [fails|].
  destruct (date (req_checkIn req)) as [ci|]; [|fails].
  destruct (date (req_checkOut req)) as [co|]; [|fails].
  cbn [negb]. case_bool_decide; [fails|].
  destruct (negb (schema_valid _)); [fails|].
  destruct (pre_save clk _); [|fails].
  right. by eexists _, _, _.
Qed.

Lemma cancelBooking_effect clk st userId id reason :
  (is_failure (cancelBooking clk st userId id reason).1
   ∧ (cancelBooking clk st userId id reason).2 = st)
  ∨ ∃ bid b l,
      id = Some bid
      ∧ validate_cancel reason = []
      ∧ bookings st !! bid = Some b
      ∧ listings st !! listing b = Some l
      ∧ (guest b = userId ∨ host l = userId)
      ∧ active b
      ∧ today clk <= checkIn b < checkOut b
      ∧ cancelBooking clk st userId id reason =
          (BookingCancelled (set_cancelled b (or_default reason "No reason provided")),
           {| bookings :=
                <[bid := set_cancelled b (or_default reason "No reason provided")]>
                  (bookings st);
              listings := listings st |}).
Proof.
  unfold cancelBooking, save. handler.
  destruct (validate_cancel reason) eqn:Hv; [|fails].
  destruct id as [bid|]; [|fails].
  destruct (bookings st !! bid) as [b|] eqn:Hb; [|fails].
  destruct (listings st !! listing b) as [l|] eqn:Hl; [|fails].
  destruct (negb (bool_decide (guest b = userId))
            && negb (bool_decide (host l = userId))) eqn:Hwho; [fails|].
  destruct (bool_decide (status b = cancelled)) eqn:Hc; [fails|].
  destruct (bool_decide (status b = completed)) eqn:Hd; [fails|].
  destruct (pre_save clk _) eqn:Hps; [|fails].
  apply bool_decide_eq_false in Hc, Hd.
  right. exists bid, b, l. repeat split; try done.
  - apply andb_false_iff in Hwho as [H|H]; apply negb_false_iff in H;
      apply bool_decide_eq_true in H; auto.
  - unfold active. destruct (status b); auto; done.
  - by apply pre_save_true in Hps as [? ?].
  - by apply pre_save_true in Hps as [? ?].
Qed.

Lemma addReview_effect clk st userId id req :
  (is_failure (addReview clk st userId id req).1
   ∧ (addReview clk st userId id req).2 = st)
  ∨ ∃ bid b n,
      id = Some bid
      ∧ rv_rating req = IsInt n ∧ 1 ≤ n ∧ n ≤ 5
      ∧ length_at_most 500 (rv_comment req) = true
      ∧ bookings st !! bid = Some b
      ∧ guest b = userId
      ∧ status b = completed
      ∧ reviewed b = false
      ∧ today clk <= checkIn b < checkOut b
      ∧ addReview clk st userId id req =
          (ReviewAdded
             (set_review b {| rating := n;
                              comment := or_default (rv_comment req) "";
                              reviewDate := now clk |}),
           {| bookings :=
                <[bid := set_review b
                           {| rating := n;
                              comment := or_default (rv_comment req) "";
                              reviewDate := now clk |}]> (bookings st);
              listings :=
                match listings st !! listing b with
                | Some l => <[listing b := add_rating l n]> (listings st)
                | None => listings st
                end |}).
Proof.
  destruct (rv_rating req) as [| |n] eqn:Hr.
  1,2: unfold addReview, validate_review; handler; rewrite Hr; fails.
  destruct (decide (1 ≤ n ∧ n ≤ 5)) as [Hn|Hn].
  2: { unfold addReview, validate_review. handler. rewrite Hr.
       destruct (Z.leb_spec 1 n), (Z.leb_spec n 5); try lia; fails. }
  destruct (length_at_most 500 (rv_comment req)) eqn:Hc.
  2: { unfold addReview, validate_review. handler. rewrite Hr, Hc.
       destruct ((1 <=? n) && (n <=? 5)); fails. }
  destruct id as [bid|]; [|unfold addReview, validate_review; handler;
    rewrite Hr, Hc; destruct ((1 <=? n) && (n <=? 5)); fails].
  destruct (bookings st !! bid) as [b|] eqn:Hb.
  2: { unfold addReview, validate_review. handler. rewrite Hr, Hc, Hb.
       destruct ((1 <=? n) && (n <=? 5)); fails. }
  destruct (decide (guest b = userId)) as [Hg|Hg].
  2: { unfold addReview, validate_review. handler. rewrite Hr, Hc, Hb.
       rewrite (bool_decide_eq_false_2 _ Hg).
       destruct ((1 <=? n) && (n <=? 5)); fails. }
  destruct (decide (status b = completed)) as [Hs|Hs].
  2: { unfold addReview, validate_review. handler. rewrite Hr, Hc, Hb.
       rewrite (bool_decide_eq_true_2 _ Hg), (bool_decide_eq_false_2 _ Hs).
       destruct ((1 <=? n) && (n <=? 5)); fails. }
  destruct (reviewed b) eqn:Hrev.
  { unfold addReview, validate_review. handler. rewrite Hr, Hc, Hb, Hrev.
    rewrite (bool_decide_eq_true_2 _ Hg), (bool_decide_eq_true_2 _ Hs).
    destruct ((1 <=? n) && (n <=? 5)); fails. }
  destruct (pre_save clk b) eqn:Hps.
  - apply pre_save_true in Hps.
    right. exists bid, b, n. repeat split; try done; try lia.
    by apply addReview_succeeds.
  - unfold addReview, validate_review, save. handler.
    rewrite Hr, Hc, Hb, Hrev.
    rewrite (bool_decide_eq_true_2 _ Hg), (bool_decide_eq_true_2 _ Hs).
    destruct ((1 <=? n) && (n <=? 5)); [|fails]. cbn [negb app].
    destruct (negb (review_valid _)); [fails|].
    change (pre_save clk (set_review b _)) with (pre_save clk b).
    rewrite Hps. fails.
Qed.

(** X1. A request that is answered with a failure writes nothing: after
    a failed creation, cancellation or review the store is the store
    before. *)
Theorem failed_request_writes_nothing :
  (∀ clk st userId req,
     is_failure (createBooking clk st userId req).1 →
     (createBooking clk st userId req).2 = st)
  ∧ (∀ clk st userId id reason,
       is_failure (cancelBooking clk st userId id reason).1 →
       (cancelBooking clk st userId id reason).2 = st)
  ∧ (∀ clk st userId id req,
       is_failure (addReview clk st userId id req).1 →
       (addReview clk st userId id req).2 = st).
Proof.
  split; [|split].
  - intros clk st userId req Hf.
    destruct (createBooking_effect clk st userId req)
      as [[_ ?]|(id & b & st' & Heq)]; [done|].
    rewrite Heq in Hf. unfold is_failure in Hf. simpl in Hf. lia.
  - intros clk st userId id reason Hf.
    destruct (cancelBooking_effect clk st userId id reason)
      as [[_ ?]|(bid & b & l & _ & _ & _ & _ & _ & _ & _ & Heq)]; [done|].
    rewrite Heq in Hf. unfold is_failure in Hf. simpl in Hf. lia.
  - intros clk st userId id req Hf.
    destruct (addReview_effect clk st userId id req)
      as [[_ ?]|(bid & b & n & _ & _ & _ & _ & _ & _ & _ & _ & _ & _ & Heq)];
      [done|].
    rewrite Heq in Hf. unfold is_failure in Hf. simpl in Hf. lia.
Qed.

(** The document that a successful creation stores. *)
Lemma createBooking_document clk st userId req id b st' :
  createBooking clk st userId req = (BookingCreated id b, st') →
  ∃ lid l ci co,
    req_listing req = IdOk lid
    ∧ listings st !! lid = Some l
    ∧ isActive l = true
    ∧ totalGuests req ≤ maxGuests l
    ∧ date (req_checkIn req) = Some ci
    ∧ date (req_checkOut req) = Some co
    ∧ today clk <= ci < co
    ∧ findOne (overlap_filter lid ci co) (bookings st) = None
    ∧ b = {| listing := lid;
             guest := userId;
             checkIn := ci;
             checkOut := co;
             guests := {| adults := or_zero (req_adults req);
                          children := or_zero (req_children req);
                          infants := or_zero (req_infants req) |};
             totalAmount :=
               js_mul (inject_Z (ceil_div (co - ci) MS_PER_DAY)) (price l);
             status := pending;
             paymentStatus := pay_pending;
             specialRequests := req_specialRequests req;
             cancellationReason := None;
             review := None;
             createdAt := now clk |}
    ∧ id = new_id (bookings st)
    ∧ st' = {| bookings := <[id := b]> (bookings st); listings := listings st |}.
Proof.
  unfold createBooking, save. handler. intros H.
  destruct (validate_create clk req) eqn:Hv; [|done].
  destruct (req_listing req) as [| |lid] eqn:Hl; [done..|].
  destruct (listings st !! lid) as [l|] eqn:Hll; [|done].
  destruct (isActive l) eqn:Ha; [|done]. simpl in H.
  destruct (Z.gtb_spec (totalGuests req) (maxGuests l)) as [|Hcap]; [done|].
  destruct (date (req_checkIn req)) as [ci|] eqn:Hci; [|done].
  destruct (date (req_checkOut req)) as [co|] eqn:Hco; [|done].
  destruct (bool_decide (is_Some _)) eqn:Hov; [done|].
  apply bool_decide_eq_false in Hov.
  destruct (negb (schema_valid _)); [done|].
  destruct (pre_save clk _) eqn:Hps; [|done].
  apply pre_save_true in Hps. simpl in Hps.
  simplify_eq. exists lid, l, ci, co.
  repeat split; try done; try lia.
  destruct (findOne _ _) eqn:Hf; [|done]. exfalso. apply Hov. by eexists.
Qed.

(** X2. A successful creation adds one booking and changes nothing else:
    the identifier was free, every other booking and every listing is as
    before, and the new booking belongs to the caller, is pending with a
    pending payment, has no review and no cancellation reason, starts no
    earlier than today, ends after it starts, and fits the capacity of its
    listing, which exists and is active. *)
Theorem creation_adds_one_booking clk st userId req id b st' :
  createBooking clk st userId req = (BookingCreated id b, st') →
  bookings st !! id = None
  ∧ bookings st' !! id = Some b
  ∧ (∀ j, j ≠ id → bookings st' !! j = bookings st !! j)
  ∧ listings st' = listings st
  ∧ guest b = userId
  ∧ status b = pending
  ∧ paymentStatus b = pay_pending
  ∧ review b = None
  ∧ cancellationReason b = None
  ∧ today clk <= checkIn b < checkOut b
  ∧ ∃ l, listings st !! listing b = Some l
         ∧ isActive l = true
         ∧ booking_totalGuests b ≤ maxGuests l.
Proof.
  intros H. apply createBooking_document in H
    as (lid & l & ci & co & _ & Hl & Ha & Hcap & _ & _ & Hd & _ & -> & -> & ->).
  cbn [bookings listings guest status paymentStatus review
       cancellationReason checkIn checkOut listing].
  split; [apply new_id_fresh|].
  split; [apply lookup_insert_eq|].
  split; [intros j Hj; by apply lookup_insert_ne|].
  repeat split; try done; try lia.
  exists l. repeat split; done.
Qed.

(** X3. No double booking is an invariant of the three handlers that
    write bookings: if no two pending or confirmed bookings of one listing
    overlap before a creation, a cancellation or a review, none do
    after. *)
Theorem no_double_booking_kept :
  (∀ clk st userId req,
     no_double_booking st →
     no_double_booking (createBooking clk st userId req).2)
  ∧ (∀ clk st userId id reason,
       no_double_booking st →
       no_double_booking (cancelBooking clk st userId id reason).2)
  ∧ (∀ clk st userId id req,
       no_double_booking st →
       no_double_booking (addReview clk st userId id req).2).
Proof.
  split; [|split].
  - intros clk st userId req Hinv.
    destruct (createBooking_effect clk st userId req)
      as [[_ ->]|(id & b & st' & Heq)]; [done|].
    rewrite Heq. cbn [snd].
    apply createBooking_document in Heq
      as (lid & l & ci & co & _ & _ & _ & _ & _ & _ & _ & Hnone & Hb & Hid & ->).
    assert (Hfree : ∀ j b2, bookings st !! j = Some b2 → listing b2 = lid →
              active b2 → ¬ (checkIn b2 < co ∧ ci < checkOut b2)).
    { intros j b2 Hj Hl2 Ha2 Ho.
      assert (is_Some (findOne (overlap_filter lid ci co) (bookings st))) as [? Hs].
      { apply findOne_is_Some. exists j, b2. split; [done|].
        apply overlap_filter_true. unfold active in Ha2. tauto. }
      congruence. }
    assert (Hnew : listing b = lid ∧ checkIn b = ci ∧ checkOut b = co)
      by (subst b; done).
    destruct Hnew as (Hbl & Hbi & Hbo).
    intros i j b1 b2 Hij H1 H2 Hl Ha1 Ha2 [Ho1 Ho2]. cbn [bookings] in H1, H2.
    destruct (decide (i = id)) as [->|Hi], (decide (j = id)) as [->|Hj].
    + done.
    + rewrite lookup_insert_eq in H1. rewrite lookup_insert_ne in H2 by done.
      simplify_eq. eapply (Hfree j b2); eauto; lia.
    + rewrite lookup_insert_eq in H2. rewrite lookup_insert_ne in H1 by done.
      simplify_eq. eapply (Hfree i b1); eauto; lia.
    + rewrite lookup_insert_ne in H1, H2 by done.
      eapply (Hinv i j b1 b2); eauto. by split.
  - intros clk st userId id reason Hinv.
    destruct (cancelBooking_effect clk st userId id reason)
      as [[_ ->]|(bid & b & l & _ & _ & Hb & _ & _ & _ & _ & ->)]; [done|].
    cbn [snd]. intros i j b1 b2 Hij H1 H2 Hl Ha1 Ha2 Ho.
    cbn [bookings] in H1, H2.
    destruct (decide (i = bid)) as [->|Hi].
    { rewrite lookup_insert_eq in H1. simplify_eq.
      by destruct Ha1 as [Ha1|Ha1]. }
    destruct (decide (j = bid)) as [->|Hj].
    { rewrite lookup_insert_eq in H2. simplify_eq.
      by destruct Ha2 as [Ha2|Ha2]. }
    rewrite lookup_insert_ne in H1, H2 by done.
    by eapply (Hinv i j b1 b2).
  - intros clk st userId id req Hinv.
    destruct (addReview_effect clk st userId id req)
      as [[_ ->]|(bid & b & n & _ & _ & _ & _ & _ & Hb & _ & _ & _ & _ & ->)];
      [done|].
    cbn [snd]. intros i j b1 b2 Hij H1 H2 Hl Ha1 Ha2 Ho.
    cbn [bookings] in H1, H2.
    assert (Hback : ∀ k bk, <[bid := set_review b
              {| rating := n; comment := or_default (rv_comment req) "";
                 reviewDate := now clk |}]> (bookings st) !! k = Some bk →
            ∃ bk', bookings st !! k = Some bk' ∧ listing bk' = listing bk
              ∧ status bk' = status bk ∧ checkIn bk' = checkIn bk
              ∧ checkOut bk' = checkOut bk).
    { intros k bk Hk. destruct (decide (k = bid)) as [->|Hne].
      - rewrite lookup_insert_eq in Hk. simplify_eq. by exists b.
      - rewrite lookup_insert_ne in Hk by done. by exists bk. }
    apply Hback in H1 as (b1' & H1 & E1l & E1s & E1i & E1o).
    apply Hback in H2 as (b2' & H2 & E2l & E2s & E2i & E2o).
    apply (Hinv i j b1' b2' Hij H1 H2).
    + congruence.
    + unfold active in *. by rewrite E1s.
    + unfold active in *. by rewrite E2s.
    + by rewrite E1i, E1o, E2i, E2o.
Qed.

(** ** Creation, continued *)

Lemma ceil_div_pos (a b : Z) : 0 < b → 0 < a → 1 ≤ ceil_div a b.
Proof.
  intros Hb Ha. pose proof (ceil_div_bounds a b Hb). nia.
Qed.

(** X4. The virtual [nights] of a created booking is the number of
    nights that creation charged: it is at least 1, it is the number of
    days from check-in to check-out rounded up, and the total amount is
    the product of [nights] and the nightly price of the listing, rounded
    to the nearest double. *)
Theorem created_booking_virtuals clk st userId req id b st' :
  createBooking clk st userId req = (BookingCreated id b, st') →
  1 ≤ nights b
  ∧ (nights b - 1) * MS_PER_DAY < checkOut b - checkIn b ≤ nights b * MS_PER_DAY
  ∧ ∃ l, listings st !! listing b = Some l
         ∧ totalAmount b = js_mul (inject_Z (nights b)) (price l).
Proof.
  intros H. apply createBooking_document in H
    as (lid & l & ci & co & _ & Hl & _ & _ & _ & _ & Hd & _ & -> & _ & _).
  unfold nights.
  cbn [checkIn checkOut listing totalAmount].
  rewrite Z.abs_eq by lia.
  split; [apply ceil_div_pos; [by compute|lia]|].
  split; [by apply ceil_div_bounds|]. by exists l.
Qed.

(** X5. The guest can withdraw what they have just booked: as long as
    the day of check-in has not passed, the cancellation by the caller of
    a booking that creation has just returned, with a reason within
    bounds or none, succeeds and leaves the booking cancelled. *)
Theorem created_booking_can_be_cancelled clk st userId req id b st' clk' reason :
  createBooking clk st userId req = (BookingCreated id b, st') →
  today clk' ≤ checkIn b →
  validate_cancel reason = [] →
  ∃ b',
    cancelBooking clk' st' userId (Some id) reason =
      (BookingCancelled b',
       {| bookings := <[id := b']> (bookings st'); listings := listings st' |})
    ∧ status b' = cancelled
    ∧ cancellationReason b' = Some (or_default reason "No reason provided").
Proof.
  intros H Hday Hv.
  apply createBooking_document in H
    as (lid & l & ci & co & _ & Hl & _ & _ & _ & _ & Hd & _ & Hb & _ & ->).
  exists (set_cancelled b (or_default reason "No reason provided")).
  split; [|done].
  apply (cancelBooking_succeeds clk' _ userId id reason b l).
  - done.
  - apply lookup_insert_eq.
  - by subst b.
  - left. by subst b.
  - left. by subst b.
  - subst b. cbn [checkIn checkOut] in *. lia.
Qed.

(** ** Cancellation, continued *)

(** X6. Cancellation succeeds exactly when the identifier names a stored
    booking whose listing still exists, the reason is within bounds, the
    caller is the guest or the host of the listing, the booking is pending
    or confirmed, and its dates pass the hook on the day of the request.
    It then rewrites that one booking, with status cancelled and the
    reason given or the placeholder, and nothing else. *)
Theorem cancellation_succeeds_iff clk st userId id reason :
  ((∃ b', (cancelBooking clk st userId id reason).1 = BookingCancelled b') ↔
   ∃ bid b l,
     id = Some bid
     ∧ validate_cancel reason = []
     ∧ bookings st !! bid = Some b
     ∧ listings st !! listing b = Some l
     ∧ (guest b = userId ∨ host l = userId)
     ∧ active b
     ∧ today clk <= checkIn b < checkOut b)
  ∧ (∀ b', (cancelBooking clk st userId id reason).1 = BookingCancelled b' →
     ∃ bid b,
       id = Some bid
       ∧ bookings st !! bid = Some b
       ∧ b' = set_cancelled b (or_default reason "No reason provided")
       ∧ (cancelBooking clk st userId id reason).2 =
           {| bookings := <[bid := b']> (bookings st);
              listings := listings st |}).
Proof.
  split; [split|].
  - intros [b' Hb'].
    destruct (cancelBooking_effect clk st userId id reason)
      as [[Hf _]|(bid & b & l & H)].
    { rewrite Hb' in Hf. unfold is_failure in Hf. simpl in Hf. lia. }
    exists bid, b, l. tauto.
  - intros (bid & b & l & -> & Hv & Hb & Hl & Hw & Ha & Hd).
    eexists. by rewrite (cancelBooking_succeeds clk st userId bid reason b l).
  - intros b' Hb'.
    destruct (cancelBooking_effect clk st userId id reason)
      as [[Hf _]|(bid & b & l & -> & _ & Hb & _ & _ & _ & _ & Heq)].
    { rewrite Hb' in Hf. unfold is_failure in Hf. simpl in Hf. lia. }
    rewrite Heq in Hb' |- *. cbn [fst snd] in *. simplify_eq.
    by exists bid, b.
Qed.

Lemma createBooking_conflict_witness clk st userId req :
  (createBooking clk st userId req).1 = DatesNotAvailable →
  ∃ lid ci co j b,
    req_listing req = IdOk lid
    ∧ date (req_checkIn req) = Some ci
    ∧ date (req_checkOut req) = Some co
    ∧ bookings st !! j = Some b
    ∧ overlap_filter lid ci co b = true.
Proof.
  unfold createBooking, save. handler.
  destruct (validate_create clk req); [|done].
  destruct (req_listing req) as [| |lid]; [done..|].
  destruct (listings st !! lid) as [l|]; [|done].
  destruct (isActive l); [|done].
  destruct (totalGuests req >? maxGuests l); [done|].
  destruct (date (req_checkIn req)) as [ci|]; [|done].
  destruct (date (req_checkOut req)) as [co|]; [|done].
  cbn [negb].
  destruct (bool_decide (is_Some _)) eqn:Hov.
  - intros _. apply bool_decide_eq_true, findOne_is_Some in Hov
      as (j & b & Hb & Hf). by exists lid, ci, co, j, b.
  - destruct (negb (schema_valid _)); [done|].
    by destruct (pre_save clk _).
Qed.

(** X7. Cancellation frees the dates: once a booking is cancelled, a
    request for its listing is no longer answered with the availability
    conflict, whoever asks and whenever, provided no other pending or
    confirmed booking of the listing overlaps the requested dates. *)
Theorem cancellation_frees_dates
    clk st userId bid reason b' st' clk' userId' req lid ci co :
  cancelBooking clk st userId (Some bid) reason = (BookingCancelled b', st') →
  req_listing req = IdOk lid →
  date (req_checkIn req) = Some ci →
  date (req_checkOut req) = Some co →
  (∀ j b, j ≠ bid → bookings st !! j = Some b → listing b = lid →
     active b → ¬ overlap (checkIn b) (checkOut b) ci co) →
  (createBooking clk' st' userId' req).1 ≠ DatesNotAvailable.
Proof.
  intros Hc Hlid Hci Hco Hfree Hconf.
  destruct (cancelBooking_effect clk st userId (Some bid) reason)
    as [[Hf _]|(bid' & b & l & Hid & _ & Hb & _ & _ & _ & _ & Heq)].
  { rewrite Hc in Hf. unfold is_failure in Hf. simpl in Hf. lia. }
  rewrite Hc in Heq. simplify_eq.
  apply createBooking_conflict_witness in Hconf
    as (lid' & ci' & co' & j & bj & Hlid' & Hci' & Hco' & Hj & Hf).
  rewrite Hlid in Hlid'. rewrite Hci in Hci'. rewrite Hco in Hco'.
  simplify_eq. cbn [bookings] in Hj.
  apply overlap_filter_true in Hf as (Hl & Hs & Ho1 & Ho2).
  destruct (decide (j = bid')) as [->|Hne].
  - rewrite lookup_insert_eq in Hj. simplify_eq. by destruct Hs.
  - rewrite lookup_insert_ne in Hj by done.
    apply (Hfree j bj); try done; unfold overlap; lia.
Qed.

(** X8. A cancelled booking stays cancelled: after a successful
    cancellation, a further cancellation of the same booking by the same
    caller, with a reason within bounds or none, is answered with 'Booking
    is already cancelled' on any day, and writes nothing. *)
Theorem cancelled_booking_stays_cancelled
    clk st userId bid reason b' st' clk' reason' :
  cancelBooking clk st userId (Some bid) reason = (BookingCancelled b', st') →
  validate_cancel reason' = [] →
  cancelBooking clk' st' userId (Some bid) reason' = (AlreadyCancelled, st').
Proof.
  intros Hc Hv.
  destruct (cancelBooking_effect clk st userId (Some bid) reason)
    as [[Hf _]|(bid' & b & l & Hid & _ & Hb & Hl & Hw & _ & _ & Heq)].
  { rewrite Hc in Hf. unfold is_failure in Hf. simpl in Hf. lia. }
  rewrite Hc in Heq. simplify_eq.
  unfold cancelBooking. handler. rewrite Hv. cbn [bookings listings].
  rewrite lookup_insert_eq. cbn [set_cancelled listing guest status].
  rewrite Hl.
  assert (negb (bool_decide (guest b = userId))
          && negb (bool_decide (host l = userId)) = false) as ->.
  { destruct Hw as [Hw|Hw]; rewrite (bool_decide_eq_true_2 _ Hw); simpl;
      [done|apply andb_false_r]. }
  done.
Qed.

(** ** Review, continued *)

(** X9. A review is accepted exactly when the identifier names a stored
    booking, the rating passes as an integer from 1 to 5, the comment is
    within bounds, the caller is the guest, the booking is completed and
    not yet reviewed, and its dates pass the hook on the day of the
    request.  It then stores the rating, the comment and the time of the
    request on that booking and leaves every other booking and every other
    listing as it was; the listing of the booking, if it still exists,
    counts one review more and keeps every field but its rating. *)
Theorem review_succeeds_iff clk st userId id req :
  ((∃ b', (addReview clk st userId id req).1 = ReviewAdded b') ↔
   ∃ bid b n,
     id = Some bid
     ∧ rv_rating req = IsInt n ∧ 1 ≤ n ∧ n ≤ 5
     ∧ length_at_most 500 (rv_comment req) = true
     ∧ bookings st !! bid = Some b
     ∧ guest b = userId
     ∧ status b = completed
     ∧ reviewed b = false
     ∧ today clk <= checkIn b < checkOut b)
  ∧ (∀ b', (addReview clk st userId id req).1 = ReviewAdded b' →
     ∃ bid b n,
       id = Some bid
       ∧ bookings st !! bid = Some b
       ∧ rv_rating req = IsInt n
       ∧ b' = set_review b {| rating := n;
                              comment := or_default (rv_comment req) "";
                              reviewDate := now clk |}
       ∧ bookings (addReview clk st userId id req).2 !! bid = Some b'
       ∧ (∀ j, j ≠ bid →
            bookings (addReview clk st userId id req).2 !! j = bookings st !! j)
       ∧ (∀ k, k ≠ listing b →
            listings (addReview clk st userId id req).2 !! k = listings st !! k)
       ∧ match listings st !! listing b with
         | Some l =>
             ∃ l', listings (addReview clk st userId id req).2 !! listing b
                   = Some l'
               ∧ count (lrating l') = count (lrating l) + 1
               ∧ host l' = host l
               ∧ price l' = price l
               ∧ city l' = city l
               ∧ propertyType l' = propertyType l
               ∧ maxGuests l' = maxGuests l
               ∧ isActive l' = isActive l
               ∧ listedAt l' = listedAt l
         | None =>
             listings (addReview clk st userId id req).2 !! listing b = None
         end).
Proof.
  split; [split|].
  - intros [b' Hb'].
    destruct (addReview_effect clk st userId id req)
      as [[Hf _]|(bid & b & n & H)].
    { rewrite Hb' in Hf. unfold is_failure in Hf. simpl in Hf. lia. }
    exists bid, b, n. tauto.
  - intros (bid & b & n & -> & Hr & Hn1 & Hn5 & Hc & Hb & Hg & Hs & Hrev & Hd).
    eexists.
    rewrite (addReview_succeeds clk st userId bid req b n); done || lia.
  - intros b' Hb'.
    destruct (addReview_effect clk st userId id req)
      as [[Hf _]|(bid & b & n & -> & Hr & _ & _ & _ & Hb & _ & _ & _ & _ & Heq)].
    { rewrite Hb' in Hf. unfold is_failure in Hf. simpl in Hf. lia. }
    rewrite Heq in Hb' |- *. cbn [fst snd bookings listings] in *.
    simplify_eq. exists bid, b, n.
    split; [done|]. split; [done|]. split; [done|]. split; [done|].
    split; [apply lookup_insert_eq|].
    split; [intros j Hj; by apply lookup_insert_ne|].
    destruct (listings st !! listing b) as [l|] eqn:Hl.
    + split; [intros k Hk; by apply lookup_insert_ne|].
      exists (add_rating l n). split; [apply lookup_insert_eq|done].
    + split; [done|]. done.
Qed.

(** X11. A rating is counted once: after an accepted review, a further
    review of the same booking by the same caller with a valid request is
    answered with 'Booking already reviewed' on any day, and writes
    nothing. *)
Theorem reviewed_booking_stays_reviewed
    clk st userId bid req b' st' clk' req' :
  addReview clk st userId (Some bid) req = (ReviewAdded b', st') →
  validate_review req' = [] →
  addReview clk' st' userId (Some bid) req' = (AlreadyReviewed, st').
Proof.
  intros Hr Hv.
  destruct (addReview_effect clk st userId (Some bid) req)
    as [[Hf _]|(bid' & b & n & Hid & _ & Hn1 & _ & _ & Hb & Hg & Hs & _ & _ & Heq)].
  { rewrite Hr in Hf. unfold is_failure in Hf. simpl in Hf. lia. }
  rewrite Hr in Heq. simplify_eq.
  unfold addReview. handler. rewrite Hv. cbn [bookings].
  rewrite lookup_insert_eq. cbn [set_review guest status].
  rewrite (bool_decide_eq_true_2 _ eq_refl), (bool_decide_eq_true_2 _ Hs).
  cbn [negb]. unfold reviewed. cbn [set_review review rating].
  destruct (Z.eqb_spec n 0); [lia|done].
Qed.

(** ** Retrieval of bookings *)

Lemma elem_of_bool_filter {A} (f : A → bool) (l : list A) x :
  x ∈ List.filter f l ↔ x ∈ l ∧ f x = true.
Proof. by rewrite !list_elem_of_In, filter_In. Qed.

Lemma NoDup_newest_first {A} (created : A → Z) (f : N * A → bool)
    (m : gmap N A) :
  NoDup (newest_first created (List.filter f (map_to_list m))).
Proof.
  unfold newest_first. rewrite merge_sort_Permutation.
  apply NoDup_ListNoDup, List.NoDup_filter, NoDup_ListNoDup, NoDup_map_to_list.
Qed.

Lemma hosted_listing_ids st userId lid :
  lid ∈ (map_to_list (filter (λ kv, host kv.2 = userId) (listings st))).*1 ↔
  ∃ l, listings st !! lid = Some l ∧ host l = userId.
Proof.
  rewrite list_elem_of_fmap. split.
  - intros ([i l] & -> & Hin).
    apply elem_of_map_to_list, map_lookup_filter_Some in Hin as [? ?].
    by exists l.
  - intros (l & Hl & Hh). exists (lid, l). split; [done|].
    by apply elem_of_map_to_list, map_lookup_filter_Some.
Qed.

(** X12. The two modes of the list operation.  As guest, which is also
    the mode when no [type] is given, the answer holds exactly the stored
    bookings whose guest is the caller; as host, exactly the stored
    bookings whose listing exists and is hosted by the caller; in both
    modes restricted to the status given, when one is given. *)
Theorem bookings_by_mode st userId q_status :
  (∀ q_type id b,
     q_type = None ∨ q_type = Some "guest" →
     (id, b) ∈ listed (getBookings st userId q_status q_type).1 ↔
     bookings st !! id = Some b
     ∧ guest b = userId
     ∧ match truthy q_status with
       | Some s => status_string (status b) = s
       | None => True
       end)
  ∧ (∀ id b,
       (id, b) ∈ listed (getBookings st userId q_status (Some "host")).1 ↔
       bookings st !! id = Some b
       ∧ (∃ l, listings st !! listing b = Some l ∧ host l = userId)
       ∧ match truthy q_status with
         | Some s => status_string (status b) = s
         | None => True
         end).
Proof.
  split.
  - intros q_type i b Hq.
    assert (Hf : bookings_filter st userId q_status q_type
                 = {| f_guest := Some userId; f_listing := None;
                      f_status := truthy q_status |})
      by (destruct Hq as [-> | ->]; done).
    unfold getBookings. rewrite Hf. cbn [fst listed].
    rewrite newest_first_elem, elem_of_bool_filter, elem_of_map_to_list.
    unfold matches. cbn [f_guest f_listing f_status snd].
    rewrite !andb_true_iff, bool_decide_eq_true.
    destruct (truthy q_status); [rewrite String.eqb_eq|]; tauto.
  - intros i b. unfold getBookings, bookings_filter.
    cbn [default from_option id String.eqb Ascii.eqb Bool.eqb fst listed].
    rewrite newest_first_elem, elem_of_bool_filter, elem_of_map_to_list.
    unfold matches. cbn [f_guest f_listing f_status snd].
    rewrite !andb_true_iff, bool_decide_eq_true, hosted_listing_ids.
    destruct (truthy q_status); [rewrite String.eqb_eq|]; tauto.
Qed.

(** X13. In every mode the bookings are listed newest first, by their
    time of creation, and none is listed twice. *)
Theorem bookings_listed_newest_first st userId q_status q_type :
  Sorted (λ x y : N * Booking, createdAt y.2 ≤ createdAt x.2)
    (listed (getBookings st userId q_status q_type).1)
  ∧ NoDup (listed (getBookings st userId q_status q_type).1).
Proof.
  unfold getBookings. cbn [fst listed]. split.
  - apply (Sorted_merge_sort (newer createdAt)).
  - apply NoDup_newest_first.
Qed.

(** X14. A single booking is shown only to its guest and to the host of
    its listing.  The booking is sent exactly when the identifier names a
    stored booking whose guest and listing still exist and the caller is
    that guest or the host of that listing, and what is sent is the stored
    booking; a caller who is neither is refused with 403, a booking that
    is not stored with 404, and a malformed identifier with 400. *)
Theorem booking_shown_to_guest_or_host users st userId id :
  (∀ b, getBooking users st userId id = Sent 200 b ↔
        ∃ i l, id = Some i
          ∧ bookings st !! i = Some b
          ∧ guest b ∈ users
          ∧ listings st !! listing b = Some l
          ∧ (guest b = userId ∨ host l = userId))
  ∧ (∀ code b, getBooking users st userId id = Sent code b → code = 200)
  ∧ (∀ i b l, id = Some i → bookings st !! i = Some b → guest b ∈ users →
       listings st !! listing b = Some l →
       guest b ≠ userId → host l ≠ userId →
       getBooking users st userId id
       = Refused 403 "Not authorized to view this booking")
  ∧ (∀ i, id = Some i → bookings st !! i = None →
       getBooking users st userId id = Refused 404 "Booking not found")
  ∧ (id = None →
       getBooking users st userId id = Refused 400 "Invalid booking ID").
Proof.
  unfold getBooking. repeat split.
  - destruct id as [i|]; [|done].
    destruct (bookings st !! i) as [b0|] eqn:Hb; [|done].
    destruct (bool_decide (guest b0 ∈ users)) eqn:Hu; [|done]. cbn [negb].
    destruct (listings st !! listing b0) as [l|] eqn:Hl; [|done].
    destruct (negb _ && negb _) eqn:Hw; [done|].
    intros ?. simplify_eq. exists i, l.
    apply bool_decide_eq_true in Hu.
    repeat split; try done.
    apply andb_false_iff in Hw as [H|H]; apply negb_false_iff in H;
      apply bool_decide_eq_true in H; auto.
  - intros (i & l & -> & Hb & Hu & Hl & Hw).
    rewrite Hb, (bool_decide_eq_true_2 _ Hu), Hl. cbn [negb].
    destruct Hw as [Hw|Hw]; rewrite (bool_decide_eq_true_2 _ Hw);
      cbn [negb andb]; [done|]. by rewrite andb_false_r.
  - intros code b. destruct id as [i|]; [|done].
    destruct (bookings st !! i) as [b0|]; [|done].
    destruct (negb (bool_decide (guest b0 ∈ users))); [done|].
    destruct (listings st !! listing b0) as [l|]; [|done].
    destruct (negb _ && negb _); [done|]. by intros [= <- _].
  - intros i b l -> Hb Hu Hl Hg Hh.
    rewrite Hb, (bool_decide_eq_true_2 _ Hu), Hl.
    by rewrite (bool_decide_eq_false_2 _ Hg), (bool_decide_eq_false_2 _ Hh).
  - intros i -> Hb. by rewrite Hb.
  - by intros ->.
Qed.

(** ** Listings *)

Lemma search_results_elem regex_match st q i l :
  (i, l) ∈ search_results regex_match st q ↔
  listings st !! i = Some l ∧ listing_filter regex_match q l = true.
Proof.
  unfold search_results.
  by rewrite newest_first_elem, elem_of_bool_filter, elem_of_map_to_list.
Qed.

Lemma search_results_length regex_match st q :
  Z.of_nat (length (search_results regex_match st q))
  = countDocuments regex_match q st.
Proof.
  unfold search_results, newest_first, countDocuments.
  by rewrite merge_sort_Permutation.
Qed.

Lemma getListings_items regex_match st q :
  validate_search q = [] →
  page_items (getListings regex_match st q).1
  = take (Z.to_nat (int_or 12 (q_limit q)))
      (drop (Z.to_nat ((int_or 1 (q_page q) - 1) * int_or 12 (q_limit q)))
         (search_results regex_match st q)).
Proof. intros Hv. unfold getListings. handler. by rewrite Hv. Qed.

(** X15. What a page of a search holds.  For a valid query every
    listing on the page is stored, active and passes each filter of the
    query, no listing is on the page twice, and the page holds [limit]
    listings, or what is left of the matching listings after the pages
    before it when that is less. *)
Theorem search_page_contents (regex_match : string → string → bool) st q :
  validate_search q = [] →
  (∀ i l, (i, l) ∈ page_items (getListings regex_match st q).1 →
     listings st !! i = Some l
     ∧ isActive l = true
     ∧ listing_filter regex_match q l = true)
  ∧ NoDup (page_items (getListings regex_match st q).1)
  ∧ Z.of_nat (length (page_items (getListings regex_match st q).1))
    = Z.min (int_or 12 (q_limit q))
        (Z.max 0 (countDocuments regex_match q st
                  - (int_or 1 (q_page q) - 1) * int_or 12 (q_limit q))).
Proof.
  intros Hv. rewrite (getListings_items _ _ _ Hv).
  pose proof (validate_search_nil q Hv) as (Hp & Hl1 & Hl2).
  split; [|split].
  - intros i l Hin.
    apply subseteq_take, subseteq_drop, search_results_elem in Hin as [Hs Hf].
    repeat split; try done.
    unfold listing_filter in Hf. by destruct (isActive l).
  - eapply sublist_NoDup; [|apply sublist_take].
    eapply sublist_NoDup; [|apply sublist_drop].
    apply NoDup_newest_first.
  - rewrite length_take, length_drop, <- search_results_length.
    assert (0 ≤ (int_or 1 (q_page q) - 1) * int_or 12 (q_limit q)) by nia.
    lia.
Qed.

(** X16. A listing that is not active is hidden from the public and
    kept for its host: fetching it is refused with 404, no search page
    holds it, whatever the query, and the listings of its host still hold
    it. *)
Theorem inactive_listing_hidden (regex_match : string → string → bool) st i l :
  listings st !! i = Some l →
  isActive l = false →
  getListing st (Some i) = Refused 404 "Listing is not available"
  ∧ (∀ q, (i, l) ∉ page_items (getListings regex_match st q).1)
  ∧ (i, l) ∈ getMyListings st (host l).
Proof.
  intros Hl Ha. split; [|split].
  - unfold getListing. by rewrite Hl, Ha.
  - intros q Hin. unfold getListings in Hin. handler.
    destruct (validate_search q); [|by apply elem_of_nil in Hin].
    cbn [fst page_items] in Hin.
    apply subseteq_take, subseteq_drop in Hin.
    apply (search_results_elem regex_match st q i l) in Hin as [_ Hf].
    unfold listing_filter in Hf. by rewrite Ha in Hf.
  - unfold getMyListings.
    rewrite newest_first_elem, elem_of_bool_filter, elem_of_map_to_list.
    split; [done|]. by apply bool_decide_eq_true.
Qed.

(** X17. The listings of a host are exactly the stored listings whose
    host is the caller, active or not, newest first and each once; an
    active listing is also what fetching it by identifier returns. *)
Theorem my_listings_are_the_callers st userId :
  (∀ i l, (i, l) ∈ getMyListings st userId ↔
          listings st !! i = Some l ∧ host l = userId)
  ∧ Sorted (λ x y : N * Listing, listedAt y.2 ≤ listedAt x.2)
      (getMyListings st userId)
  ∧ NoDup (getMyListings st userId)
  ∧ (∀ i l, (i, l) ∈ getMyListings st userId → isActive l = true →
       getListing st (Some i) = Sent 200 l).
Proof.
  assert (Hel : ∀ i l, (i, l) ∈ getMyListings st userId ↔
                       listings st !! i = Some l ∧ host l = userId).
  { intros i l. unfold getMyListings.
    rewrite newest_first_elem, elem_of_bool_filter, elem_of_map_to_list.
    cbn [snd]. by rewrite bool_decide_eq_true. }
  split; [exact Hel|]. split; [|split].
  - apply (Sorted_merge_sort (newer listedAt)).
  - apply NoDup_newest_first.
  - intros i l [Hl _]%Hel Ha. unfold getListing. by rewrite Hl, Ha.
Qed.

Lemma deleteListing_effect st userId id :
  (∃ code m, deleteListing st userId id = (Refused code m, st) ∧ 400 ≤ code)
  ∨ ∃ i l,
      id = Some i
      ∧ listings st !! i = Some l
      ∧ host l = userId
      ∧ deleteListing st userId id
        = (Sent 200 (),
           {| bookings := bookings st; listings := delete i (listings st) |}).
Proof.
  unfold deleteListing.
  destruct id as [i|]; [|left; by eexists _, _].
  destruct (listings st !! i) as [l|] eqn:Hl; [|left; by eexists _, _].
  destruct (bool_decide (host l = userId)) eqn:Hh; cbn [negb];
    [|left; by eexists _, _].
  apply bool_decide_eq_true in Hh. right. by exists i, l.
Qed.

(** X18. Only its host deletes a listing.  A deletion is carried out
    exactly when the identifier names a stored listing whose host is the
    caller; it then removes that listing and nothing else, and every
    other answer is a refusal that leaves the store as it was. *)
Theorem listing_deleted_by_host_only st userId id :
  ((∃ st', deleteListing st userId id = (Sent 200 (), st')) ↔
   ∃ i l, id = Some i ∧ listings st !! i = Some l ∧ host l = userId)
  ∧ (∀ st', deleteListing st userId id = (Sent 200 (), st') →
     ∃ i, id = Some i
       ∧ listings st' !! i = None
       ∧ (∀ k, k ≠ i → listings st' !! k = listings st !! k)
       ∧ bookings st' = bookings st)
  ∧ (∀ code m, (deleteListing st userId id).1 = Refused code m →
     (deleteListing st userId id).2 = st).
Proof.
  destruct (deleteListing_effect st userId id)
    as [(code & m & Heq & Hc)|(i & l & -> & Hl & Hh & Heq)]; rewrite Heq.
  - split; [split|split].
    + by intros [st' ?].
    + intros (i & l & -> & Hl & Hh). unfold deleteListing in Heq.
      rewrite Hl, (bool_decide_eq_true_2 _ Hh) in Heq. done.
    + by intros st' ?.
    + done.
  - split; [split|split].
    + intros _. by exists i, l.
    + intros _. by eexists.
    + intros st' [= <-]. exists i. cbn [listings bookings].
      split; [done|]. split; [apply lookup_delete_eq|].
      split; [|done]. intros k Hk. by apply lookup_delete_ne.
    + by intros code m.
Qed.

(** X19. Deleting a listing keeps its bookings and strands them.  After
    the deletion the listing is no longer found, a valid request to book
    it is answered with 'Listing not found', and a valid cancellation of
    any booking of it is answered with the server error, for the guest as
    for anyone else, so that such a booking can no longer be cancelled. *)
Theorem deletion_strands_bookings st userId i st' :
  deleteListing st userId (Some i) = (Sent 200 (), st') →
  bookings st' = bookings st
  ∧ getListing st' (Some i) = Refused 404 "Listing not found"
  ∧ (∀ clk caller req,
       validate_create clk req = [] → req_listing req = IdOk i →
       createBooking clk st' caller req = (ListingNotFound, st'))
  ∧ (∀ clk caller bid b reason,
       bookings st !! bid = Some b → listing b = i →
       validate_cancel reason = [] →
       cancelBooking clk st' caller (Some bid) reason = (ServerError, st')).
Proof.
  intros Hd.
  destruct (deleteListing_effect st userId (Some i))
    as [(code & m & Heq & _)|(i' & l & Hid & Hl & Hh & Heq)];
    rewrite Hd in Heq; [done|]. simplify_eq.
  split; [done|]. split; [|split].
  - unfold getListing. cbn [listings]. by rewrite lookup_delete_eq.
  - intros clk caller req Hv Hr. unfold createBooking. handler.
    rewrite Hv, Hr. cbn [listings]. by rewrite lookup_delete_eq.
  - intros clk caller bid b reason Hb Hlb Hv.
    unfold cancelBooking. handler. rewrite Hv. cbn [bookings listings].
    rewrite Hb, Hlb. by rewrite lookup_delete_eq.
Qed.

(** ** Creation and retrieval together *)

(** X20. What is booked can be found again: after a successful creation
    the new booking is in the list of the caller as guest, in the list of
    the host of its listing as host, and fetching it by its identifier
    returns it to the caller, whose account exists. *)
Theorem created_booking_is_found users clk st userId req id b st' :
  createBooking clk st userId req = (BookingCreated id b, st') →
  userId ∈ users →
  (id, b) ∈ listed (getBookings st' userId None None).1
  ∧ (∃ l, listings st !! listing b = Some l
          ∧ (id, b) ∈ listed (getBookings st' (host l) None (Some "host")).1)
  ∧ getBooking users st' userId (Some id) = Sent 200 b.
Proof.
  intros H Hu. apply createBooking_document in H
    as (lid & l & ci & co & _ & Hl & _ & _ & _ & _ & _ & _ & Hb & _ & ->).
  assert (Hbl : listing b = lid) by by subst b.
  assert (Hbg : guest b = userId) by by subst b.
  split; [|split].
  - unfold getBookings, bookings_filter.
    cbn [default from_option Datatypes.id String.eqb Ascii.eqb Bool.eqb fst listed truthy].
    rewrite newest_first_elem, elem_of_bool_filter, elem_of_map_to_list.
    cbn [bookings]. split; [apply lookup_insert_eq|].
    unfold matches. cbn [f_guest f_listing f_status snd].
    by rewrite (bool_decide_eq_true_2 _ Hbg).
  - exists l. rewrite Hbl. split; [done|].
    unfold getBookings, bookings_filter.
    cbn [default from_option Datatypes.id String.eqb Ascii.eqb Bool.eqb fst listed truthy].
    rewrite newest_first_elem, elem_of_bool_filter, elem_of_map_to_list.
    cbn [bookings]. split; [apply lookup_insert_eq|].
    unfold matches. cbn [f_guest f_listing f_status snd listings].
    rewrite !andb_true_iff. repeat split.
    apply bool_decide_eq_true, hosted_listing_ids. exists l.
    rewrite Hbl. done.
  - unfold getBooking. cbn [bookings listings].
    rewrite lookup_insert_eq, Hbg, (bool_decide_eq_true_2 _ Hu), Hbl, Hl.
    cbn [negb]. by rewrite (bool_decide_eq_true_2 _ eq_refl).
Qed.

(** ** Validation and server errors *)

(** An error of one rule is not in the errors of another rule. *)
Ltac other_rule H :=
  exfalso; repeat case_match;
  rewrite ?elem_of_cons, ?elem_of_nil in H; intuition congruence.

Ltac own_rule H :=
  intros H;
  repeat (match type of H with _ ∨ _ => destruct H as [H|H] end);
  try (by other_rule H).

(** X22. Validation of a creation reports each broken rule on its own,
    whatever the other fields are: the list of errors holds the error of a
    rule exactly when that rule is broken, so several broken fields are
    reported together.  A check-in or check-out that is not a real date
    breaks neither date rule. *)
Theorem create_validation_reports_each_rule clk req :
  (ListingIdRequired ∈ validate_create clk req ↔ req_listing req = IdMissing)
  ∧ (InvalidListingId ∈ validate_create clk req ↔
     req_listing req = IdMissing ∨ req_listing req = IdMalformed)
  ∧ (CheckInNotDate ∈ validate_create clk req ↔
     isISO8601 (req_checkIn req) = false)
  ∧ (CheckInPast ∈ validate_create clk req ↔
     ∃ ci, date (req_checkIn req) = Some ci ∧ ci < today clk)
  ∧ (CheckOutNotDate ∈ validate_create clk req ↔
     isISO8601 (req_checkOut req) = false)
  ∧ (CheckOutNotAfter ∈ validate_create clk req ↔
     ∃ ci co, date (req_checkIn req) = Some ci
       ∧ date (req_checkOut req) = Some co ∧ co ≤ ci)
  ∧ (AdultsRequired ∈ validate_create clk req ↔
     ∀ n, req_adults req = IsInt n → n < 1)
  ∧ (ChildrenNegative ∈ validate_create clk req ↔
     req_children req = NotInt ∨ ∃ n, req_children req = IsInt n ∧ n < 0)
  ∧ (InfantsNegative ∈ validate_create clk req ↔
     req_infants req = NotInt ∨ ∃ n, req_infants req = IsInt n ∧ n < 0).
Proof.
  unfold validate_create. rewrite !elem_of_app.
  repeat split.
  - own_rule H. destruct (req_listing req); [done|other_rule H..].
  - intros ->. left. set_solver.
  - own_rule H. destruct (req_listing req); [by left|by right|other_rule H].
  - intros [-> | ->]; left; set_solver.
  - own_rule H. destruct (isISO8601 (req_checkIn req)); [other_rule H|done].
  - intros ->. right. left. set_solver.
  - own_rule H. destruct (date_lt _ _) eqn:Hlt; [|other_rule H].
    unfold date_lt in Hlt.
    destruct (date (req_checkIn req)) as [ci|]; [|done].
    exists ci. split; [done|]. by apply Z.ltb_lt.
  - intros (ci & -> & Hlt). do 2 right. left. cbn [date_lt].
    destruct (Z.ltb_spec ci (today clk)); [set_solver|lia].
  - own_rule H. destruct (isISO8601 (req_checkOut req)); [other_rule H|done].
  - intros ->. do 3 right. left. set_solver.
  - own_rule H. destruct (date_le _ _) eqn:Hle; [|other_rule H].
    unfold date_le in Hle.
    destruct (date (req_checkOut req)) as [co|]; [|done].
    destruct (date (req_checkIn req)) as [ci|]; [|done].
    exists ci, co. repeat split. by apply Z.leb_le.
  - intros (ci & co & -> & -> & Hle). do 4 right. left. cbn [date_le].
    destruct (Z.leb_spec co ci); [set_solver|lia].
  - own_rule H. intros n Hn. rewrite Hn in H.
    destruct (Z.leb_spec 1 n); [other_rule H|done].
  - intros Hn. do 5 right. left.
    destruct (req_adults req) as [| |n]; try set_solver.
    destruct (Z.leb_spec 1 n); [specialize (Hn n eq_refl); lia|set_solver].
  - own_rule H. destruct (req_children req) as [| |n]; [other_rule H|by left|].
    destruct (Z.leb_spec 0 n); [other_rule H|]. right. by exists n.
  - intros Hc. do 6 right. left.
    destruct Hc as [-> |(n & -> & Hn)]; [set_solver|].
    destruct (Z.leb_spec 0 n); [lia|set_solver].
  - own_rule H. destruct (req_infants req) as [| |n]; [other_rule H|by left|].
    destruct (Z.leb_spec 0 n); [other_rule H|]. right. by exists n.
  - intros Hc. do 7 right.
    destruct Hc as [-> |(n & -> & Hn)]; [set_solver|].
    destruct (Z.leb_spec 0 n); [lia|set_solver].
Qed.

(** X23. A date that passes the format check without being a real date
    is not caught by validation: when such a request is otherwise valid,
    names an active listing and fits its capacity, creation ends in the
    server error, and nothing is stored. *)
Theorem unparsable_date_is_server_error clk st userId req lid l :
  validate_create clk req = [] →
  req_listing req = IdOk lid →
  listings st !! lid = Some l →
  isActive l = true →
  totalGuests req ≤ maxGuests l →
  date (req_checkIn req) = None ∨ date (req_checkOut req) = None →
  createBooking clk st userId req = (ServerError, st).
Proof.
  intros Hv Hlid Hl Ha Hcap Hd.
  unfold createBooking. handler. rewrite Hv, Hlid, Hl, Ha. cbn [negb].
  destruct (Z.gtb_spec (totalGuests req) (maxGuests l)) as [|_]; [lia|].
  destruct Hd as [-> | ->]; [done|].
  by destruct (date (req_checkIn req)).
Qed.

(** X24. Where the server errors of a creation come from: a creation
    that is answered with the server error had a date that is not a real
    date, or a listing with a negative price, or special requests of more
    than 500 characters, for which the route has no validator. *)
Theorem creation_server_error_causes clk st userId req :
  (createBooking clk st userId req).1 = ServerError →
  date (req_checkIn req) = None
  ∨ date (req_checkOut req) = None
  ∨ (∃ lid l, req_listing req = IdOk lid ∧ listings st !! lid = Some l
       ∧ (price l < 0)%Q)
  ∨ length_at_most 500 (req_specialRequests req) = false.
Proof.
  intros He.
  destruct (date (req_checkIn req)) as [ci|] eqn:Hci; [|by left].
  destruct (date (req_checkOut req)) as [co|] eqn:Hco; [|by right; left].
  destruct (length_at_most 500 (req_specialRequests req)) eqn:Hsr;
    [|by right; right; right].
  right. right. left.
  destruct (validate_create clk req) eqn:Hv.
  2: { unfold createBooking in He. handler. by rewrite Hv in He. }
  pose proof (validate_create_nil _ _ Hv) as ([lid Hlid] & _).
  destruct (listings st !! lid) as [l|] eqn:Hl.
  2: { unfold createBooking in He. handler. by rewrite Hv, Hlid, Hl in He. }
  exists lid, l. split; [done|]. split; [done|].
  destruct (Qlt_le_dec (price l) 0) as [|Hp]; [done|]. exfalso.
  destruct (isActive l) eqn:Ha.
  2: { unfold createBooking in He. handler. by rewrite Hv, Hlid, Hl, Ha in He. }
  destruct (Z.gtb_spec (totalGuests req) (maxGuests l)) as [Hcap|Hcap].
  { unfold createBooking in He. handler. rewrite Hv, Hlid, Hl, Ha in He.
    cbn [negb] in He.
    destruct (Z.gtb_spec (totalGuests req) (maxGuests l)); [done|lia]. }
  destruct (findOne (overlap_filter lid ci co) (bookings st)) as [kv|] eqn:Hf.
  { unfold createBooking in He. handler. rewrite Hv, Hlid, Hl, Ha in He.
    cbn [negb] in He.
    destruct (Z.gtb_spec (totalGuests req) (maxGuests l)); [lia|].
    rewrite Hci, Hco, Hf in He.
    by rewrite (bool_decide_eq_true_2 _ (mk_is_Some _ _ eq_refl)) in He. }
  destruct (createBooking_succeeds clk st userId req lid l ci co)
    as (id & b & Heq & _); try done.
  - intros j bj Hj Hlj Hsj [Ho1 Ho2].
    assert (is_Some (findOne (overlap_filter lid ci co) (bookings st)))
      as [? Hs]; [|congruence].
    apply findOne_is_Some. exists j, bj. split; [done|].
    apply overlap_filter_true. repeat split; try done; lia.
  - by rewrite Heq in He.
Qed.

(** X25. Where the server errors of a cancellation and of a review come
    from: the booking exists, and either its dates do not pass the hook on
    the day of the request or, for a cancellation, its listing is gone. *)
Theorem update_server_error_causes :
  (∀ clk st userId id reason,
     (cancelBooking clk st userId id reason).1 = ServerError →
     ∃ bid b, id = Some bid ∧ bookings st !! bid = Some b
       ∧ (listings st !! listing b = None
          ∨ checkIn b < today clk ∨ checkIn b >= checkOut b))
  ∧ (∀ clk st userId id req,
       (addReview clk st userId id req).1 = ServerError →
       ∃ bid b, id = Some bid ∧ bookings st !! bid = Some b
         ∧ (checkIn b < today clk ∨ checkIn b >= checkOut b)).
Proof.
  split.
  - intros clk st userId id reason. unfold cancelBooking, save. handler.
    destruct (validate_cancel reason); [|done].
    destruct id as [bid|]; [|done].
    destruct (bookings st !! bid) as [b|] eqn:Hb; [|done].
    destruct (listings st !! listing b) as [l|] eqn:Hl;
      [|intros _; exists bid, b; auto].
    destruct (negb _ && negb _); [done|].
    destruct (bool_decide (status b = cancelled)); [done|].
    destruct (bool_decide (status b = completed)); [done|].
    destruct (pre_save clk _) eqn:Hps; [done|]. intros _.
    exists bid, b. split; [done|]. split; [done|]. right.
    change (pre_save clk b = false) in Hps.
    destruct (Z.lt_ge_cases (checkIn b) (today clk)); [by left|right].
    destruct (Z.lt_ge_cases (checkIn b) (checkOut b)); [|lia].
    assert (pre_save clk b = true) by (apply pre_save_true; lia). congruence.
  - intros clk st userId id req. unfold addReview, save. handler.
    destruct (validate_review req) eqn:Hv; [|done].
    destruct id as [bid|]; [|done].
    destruct (bookings st !! bid) as [b|] eqn:Hb; [|done].
    destruct (bool_decide (guest b = userId)); [|done].
    destruct (bool_decide (status b = completed)); [|done].
    destruct (reviewed b); [done|]. cbn [negb].
    assert (Hrv : review_valid
              {| rating := or_zero (rv_rating req);
                 comment := or_default (rv_comment req) "";
                 reviewDate := now clk |} = true).
    { unfold validate_review in Hv. apply app_eq_nil in Hv as [Hr Hc].
      unfold review_valid. cbn [rating comment].
      destruct (rv_rating req) as [| |n]; try done. cbn [or_zero].
      destruct ((1 <=? n) && (n <=? 5)) eqn:Hn; [|done].
      cbn [andb]. apply or_default_length.
      by destruct (length_at_most 500 (rv_comment req)). }
    rewrite Hrv. cbn [negb].
    destruct (pre_save clk _) eqn:Hps; [done|]. intros _.
    exists bid, b. split; [done|]. split; [done|].
    change (pre_save clk b = false) in Hps.
    destruct (Z.lt_ge_cases (checkIn b) (today clk)); [by left|right].
    destruct (Z.lt_ge_cases (checkIn b) (checkOut b)); [|lia].
    assert (pre_save clk b = true) by (apply pre_save_true; lia). congruence.
Qed.

(** ** The further properties at the sample data *)

Lemma one_booking_no_double (b : Booking) : no_double_booking (store_with b).
Proof.
  intros i j b1 b2 Hij H1 H2. cbn [store_with bookings] in H1, H2.
  apply lookup_singleton_Some in H1 as [<- _].
  apply lookup_singleton_Some in H2 as [<- _]. done.
Qed.

Lemma failed_request_writes_nothing_witness :
  (createBooking (clock_on (-29)) (store_with (july_stay confirmed)) 5%N
     (stay_request 1 4 6)).2 = store_with (july_stay confirmed).
Proof.
  apply (proj1 failed_request_writes_nothing).
  unfold is_failure. vm_compute. discriminate.
Defined.

Lemma creation_adds_one_booking_witness :
  bookings (store_with (july_stay confirmed)) !! 2%N = None
  ∧ bookings store_after_short_stay !! 2%N = Some short_stay
  ∧ (∀ j, j ≠ 2%N → bookings store_after_short_stay !! j
                    = bookings (store_with (july_stay confirmed)) !! j)
  ∧ listings store_after_short_stay = listings (store_with (july_stay confirmed))
  ∧ guest short_stay = 5%N
  ∧ status short_stay = pending
  ∧ paymentStatus short_stay = pay_pending
  ∧ review short_stay = None
  ∧ cancellationReason short_stay = None
  ∧ today (clock_on (-29)) <= checkIn short_stay < checkOut short_stay
  ∧ ∃ l, listings (store_with (july_stay confirmed)) !! listing short_stay = Some l
         ∧ isActive l = true
         ∧ booking_totalGuests short_stay ≤ maxGuests l.
Proof.
  apply (creation_adds_one_booking (clock_on (-29))
           (store_with (july_stay confirmed)) 5%N (stay_request 1 5 7)
           2%N short_stay store_after_short_stay).
  vm_compute. reflexivity.
Defined.

Lemma no_double_booking_kept_witness :
  no_double_booking
    (createBooking (clock_on (-29)) (store_with (july_stay confirmed)) 5%N
       (stay_request 1 5 7)).2.
Proof.
  apply (proj1 no_double_booking_kept).
  apply one_booking_no_double.
Defined.

Lemma created_booking_virtuals_witness :
  1 ≤ nights short_stay
  ∧ (nights short_stay - 1) * MS_PER_DAY
    < checkOut short_stay - checkIn short_stay ≤ nights short_stay * MS_PER_DAY
  ∧ ∃ l, listings (store_with (july_stay confirmed)) !! listing short_stay = Some l
         ∧ totalAmount short_stay = js_mul (inject_Z (nights short_stay)) (price l).
Proof.
  apply (created_booking_virtuals (clock_on (-29))
           (store_with (july_stay confirmed)) 5%N (stay_request 1 5 7)
           2%N short_stay store_after_short_stay).
  vm_compute. reflexivity.
Defined.

Lemma created_booking_can_be_cancelled_witness :
  ∃ b',
    cancelBooking (clock_on (-29)) store_after_short_stay 5%N (Some 2%N) None =
      (BookingCancelled b',
       {| bookings := <[2%N := b']> (bookings store_after_short_stay);
          listings := listings store_after_short_stay |})
    ∧ status b' = cancelled
    ∧ cancellationReason b' = Some (or_default None "No reason provided").
Proof.
  apply (created_booking_can_be_cancelled (clock_on (-29))
           (store_with (july_stay confirmed)) 5%N (stay_request 1 5 7)
           2%N short_stay store_after_short_stay (clock_on (-29)) None).
  - vm_compute. reflexivity.
  - vm_compute. discriminate.
  - reflexivity.
Defined.

Lemma cancellation_succeeds_iff_witness :
  ∃ bid b l,
    Some 1%N = Some bid
    ∧ validate_cancel None = []
    ∧ bookings (store_with (july_stay pending)) !! bid = Some b
    ∧ listings (store_with (july_stay pending)) !! listing b = Some l
    ∧ (guest b = 5%N ∨ host l = 5%N)
    ∧ active b
    ∧ today (clock_on (-29)) <= checkIn b < checkOut b.
Proof.
  apply (proj1 (proj1 (cancellation_succeeds_iff (clock_on (-29))
           (store_with (july_stay pending)) 5%N (Some 1%N) None))).
  exists cancelled_stay. vm_compute. reflexivity.
Defined.

Lemma cancellation_frees_dates_witness :
  (createBooking (clock_on (-20)) store_after_cancel 6%N
     (stay_request 1 2 4)).1 ≠ DatesNotAvailable.
Proof.
  apply (cancellation_frees_dates (clock_on (-29))
           (store_with (july_stay pending)) 5%N 1%N None cancelled_stay
           store_after_cancel (clock_on (-20)) 6%N (stay_request 1 2 4)
           1%N (july 2) (july 4)).
  - vm_compute. reflexivity.
  - reflexivity.
  - reflexivity.
  - reflexivity.
  - intros j b Hj Hb. cbn [store_with bookings] in Hb.
    apply lookup_singleton_Some in Hb as [<- _]. done.
Defined.

Lemma cancelled_booking_stays_cancelled_witness :
  cancelBooking (clock_on (-20)) store_after_cancel 5%N (Some 1%N)
    (Some "Changed plans")
  = (AlreadyCancelled, store_after_cancel).
Proof.
  apply (cancelled_booking_stays_cancelled (clock_on (-29))
           (store_with (july_stay pending)) 5%N 1%N None cancelled_stay
           store_after_cancel (clock_on (-20)) (Some "Changed plans")).
  - vm_compute. reflexivity.
  - reflexivity.
Defined.

Lemma review_succeeds_iff_witness :
  ∃ bid b n,
    Some 1%N = Some bid
    ∧ rv_rating five_stars = IsInt n ∧ 1 ≤ n ∧ n ≤ 5
    ∧ length_at_most 500 (rv_comment five_stars) = true
    ∧ bookings (store_with (july_stay completed)) !! bid = Some b
    ∧ guest b = 5%N
    ∧ status b = completed
    ∧ reviewed b = false
    ∧ today (clock_on (-29)) <= checkIn b < checkOut b.
Proof.
  apply (proj1 (proj1 (review_succeeds_iff (clock_on (-29))
           (store_with (july_stay completed)) 5%N (Some 1%N) five_stars))).
  exists five_star_stay. vm_compute. reflexivity.
Defined.

Lemma reviewed_booking_stays_reviewed_witness :
  addReview (clock_on (-20)) store_after_review 5%N (Some 1%N) five_stars
  = (AlreadyReviewed, store_after_review).
Proof.
  apply (reviewed_booking_stays_reviewed (clock_on (-29))
           (store_with (july_stay completed)) 5%N 1%N five_stars
           five_star_stay store_after_review (clock_on (-20)) five_stars).
  - vm_compute. reflexivity.
  - reflexivity.
Defined.

Lemma bookings_by_mode_witness :
  (1%N, july_stay pending)
    ∈ listed (getBookings (store_with (july_stay pending)) 5%N None None).1 ↔
  bookings (store_with (july_stay pending)) !! 1%N = Some (july_stay pending)
  ∧ guest (july_stay pending) = 5%N
  ∧ match truthy None with
    | Some s => status_string (status (july_stay pending)) = s
    | None => True
    end.
Proof.
  apply (proj1 (bookings_by_mode (store_with (july_stay pending)) 5%N None)).
  left. reflexivity.
Defined.

Lemma booking_shown_to_guest_or_host_witness :
  getBooking {[ 5%N; 6%N; 9%N ]} (store_with (july_stay pending)) 6%N (Some 1%N)
  = Refused 403 "Not authorized to view this booking".
Proof.
  apply (proj1 (proj2 (proj2 (booking_shown_to_guest_or_host
           {[ 5%N; 6%N; 9%N ]} (store_with (july_stay pending)) 6%N (Some 1%N))))
           1%N (july_stay pending) the_villa).
  - reflexivity.
  - reflexivity.
  - cbn [july_stay guest]. set_solver.
  - reflexivity.
  - discriminate.
  - discriminate.
Defined.

Lemma search_page_contents_witness :
  (∀ i l,
     (i, l) ∈ page_items
       (getListings (λ _ _, true) many_listings (page_query (IsInt 3) Absent)).1 →
     listings many_listings !! i = Some l
     ∧ isActive l = true
     ∧ listing_filter (λ _ _, true) (page_query (IsInt 3) Absent) l = true)
  ∧ NoDup (page_items
      (getListings (λ _ _, true) many_listings (page_query (IsInt 3) Absent)).1)
  ∧ Z.of_nat (length (page_items
      (getListings (λ _ _, true) many_listings (page_query (IsInt 3) Absent)).1))
    = Z.min 12
        (Z.max 0
           (countDocuments (λ _ _, true) (page_query (IsInt 3) Absent)
              many_listings - (3 - 1) * 12)).
Proof.
  apply (search_page_contents (λ _ _, true) many_listings
           (page_query (IsInt 3) Absent)).
  reflexivity.
Defined.

Lemma inactive_listing_hidden_witness :
  getListing (two_listings (july_stay pending)) (Some 2%N)
  = Refused 404 "Listing is not available"
  ∧ (∀ q, (2%N, hidden_flat)
          ∉ page_items (getListings (λ _ _, true)
                          (two_listings (july_stay pending)) q).1)
  ∧ (2%N, hidden_flat)
    ∈ getMyListings (two_listings (july_stay pending)) (host hidden_flat).
Proof.
  apply (inactive_listing_hidden (λ _ _, true)
           (two_listings (july_stay pending)) 2%N hidden_flat).
  - vm_compute. reflexivity.
  - reflexivity.
Defined.

Lemma my_listings_are_the_callers_witness :
  (1%N, the_villa) ∈ getMyListings (two_listings (july_stay pending)) 9%N ↔
  listings (two_listings (july_stay pending)) !! 1%N = Some the_villa
  ∧ host the_villa = 9%N.
Proof.
  apply (proj1 (my_listings_are_the_callers
                  (two_listings (july_stay pending)) 9%N)).
Defined.

Lemma listing_deleted_by_host_only_witness :
  ∃ st', deleteListing (store_with (july_stay pending)) 9%N (Some 1%N)
         = (Sent 200 (), st').
Proof.
  apply (proj2 (proj1 (listing_deleted_by_host_only
                  (store_with (july_stay pending)) 9%N (Some 1%N)))).
  exists 1%N, the_villa. vm_compute. repeat split; reflexivity.
Defined.

Lemma deletion_strands_bookings_witness :
  bookings store_after_delete = bookings (store_with (july_stay pending))
  ∧ getListing store_after_delete (Some 1%N) = Refused 404 "Listing not found"
  ∧ (∀ clk caller req,
       validate_create clk req = [] → req_listing req = IdOk 1%N →
       createBooking clk store_after_delete caller req
       = (ListingNotFound, store_after_delete))
  ∧ (∀ clk caller bid b reason,
       bookings (store_with (july_stay pending)) !! bid = Some b →
       listing b = 1%N →
       validate_cancel reason = [] →
       cancelBooking clk store_after_delete caller (Some bid) reason
       = (ServerError, store_after_delete)).
Proof.
  apply (deletion_strands_bookings (store_with (july_stay pending)) 9%N 1%N
           store_after_delete).
  vm_compute. reflexivity.
Defined.

Lemma created_booking_is_found_witness :
  (2%N, short_stay) ∈ listed (getBookings store_after_short_stay 5%N None None).1
  ∧ (∃ l, listings (store_with (july_stay confirmed)) !! listing short_stay = Some l
          ∧ (2%N, short_stay)
            ∈ listed (getBookings store_after_short_stay (host l) None
                        (Some "host")).1)
  ∧ getBooking {[ 5%N; 9%N ]} store_after_short_stay 5%N (Some 2%N)
    = Sent 200 short_stay.
Proof.
  apply (created_booking_is_found {[ 5%N; 9%N ]} (clock_on (-29))
           (store_with (july_stay confirmed)) 5%N (stay_request 1 5 7)
           2%N short_stay store_after_short_stay).
  - vm_compute. reflexivity.
  - set_solver.
Defined.

Lemma create_validation_reports_each_rule_witness :
  ∃ ci co, date (req_checkIn (stay_request 1 5 4)) = Some ci
    ∧ date (req_checkOut (stay_request 1 5 4)) = Some co ∧ co ≤ ci.
Proof.
  apply (proj1 (proj1 (proj2 (proj2 (proj2 (proj2 (proj2
           (create_validation_reports_each_rule (clock_on (-29))
              (stay_request 1 5 4))))))))).
  vm_compute. constructor.
Defined.

Lemma unparsable_date_is_server_error_witness :
  createBooking (clock_on (-29)) (store_with (july_stay confirmed)) 5%N
    week_request
  = (ServerError, store_with (july_stay confirmed)).
Proof.
  apply (unparsable_date_is_server_error (clock_on (-29))
           (store_with (july_stay confirmed)) 5%N week_request 1%N the_villa).
  - reflexivity.
  - reflexivity.
  - reflexivity.
  - reflexivity.
  - vm_compute. discriminate.
  - left. reflexivity.
Defined.

Lemma creation_server_error_causes_witness :
  date (req_checkIn week_request) = None
  ∨ date (req_checkOut week_request) = None
  ∨ (∃ lid l, req_listing week_request = IdOk lid
       ∧ listings (store_with (july_stay confirmed)) !! lid = Some l
       ∧ (price l < 0)%Q)
  ∨ length_at_most 500 (req_specialRequests week_request) = false.
Proof.
  apply (creation_server_error_causes (clock_on (-29))
           (store_with (july_stay confirmed)) 5%N week_request).
  reflexivity.
Defined.

Lemma update_server_error_causes_witness :
  ∃ bid b, Some 1%N = Some bid
    ∧ bookings (store_with (july_stay pending)) !! bid = Some b
    ∧ (listings (store_with (july_stay pending)) !! listing b = None
       ∨ checkIn b < today (clock_on 2) ∨ checkIn b >= checkOut b).
Proof.
  apply (proj1 update_server_error_causes (clock_on 2)
           (store_with (july_stay pending)) 5%N (Some 1%N) None).
  reflexivity.
Defined.
